(** * Verification of the FSRS flashcard scheduler (FSRS.py, main.py)

    A shallow embedding of the spaced-repetition engine of the repository:
    the memory model of class [FSRS] (present twice, in [FSRS.py] and in
    [main.py], with the same bodies) and the scheduling part of
    [PhysicsFlashcardStudyApp.run_study_session].

    Conventions of the embedding.
    - A Python [float] is modelled twice.  In the modules [FSRS], [App] and
      [Session] it is a real number ([R]), and the places where Python
      raises on a finite input (division by zero, [0.0 ** negative],
      [math.log] of a non-positive number, a missing dictionary key, a
      complex number reaching [min]) are modelled, as a [result].  In the
      module [Binary64] the memory model is written over the binary64
      floats of [PrimFloat], whose sum, product, quotient and comparisons
      are those of the machine; the C library's [log], [exp] and [pow],
      which CPython calls, are parameters there.
    - The two models part where binary64 absorbs a small term in a sum
      ([S + 1 == 1.0] for every [S] below 2^-53), lets a product underflow
      to zero or a library call overflow; elsewhere they differ by the
      rounding of the last bits.  A theorem over the reals that has
      [stability_increase], [calculate_retrievability] or
      [predict_review_outcome] return a value is therefore stated for
      stabilities and retrievabilities of at least [float_epsilon], 2^-52,
      for ratios and exponents within the range of the floats, or it is
      conditional on the value being returned; what the program does
      outside is shown on [Binary64].
    - A [datetime] is the integer number of microseconds since
      0001-01-01T00:00:00, a [timedelta] an integer number of microseconds.
    - A dictionary is a [gmap]; the list of question objects is a list
      addressed by position, since the objects are mutated in place.
    - The Python parameter [R] (retrievability) is written [R_], [R] being
      the type of the reals. *)

From Stdlib Require Import Reals Lra Lia ZArith Floats.
From stdpp Require Import gmap strings list sorting.

Set Warnings "-inexact-float".

(** ** Python values, exceptions and built-ins *)

Module Py.

Inductive exn : Set :=
| ZeroDivisionError
| ValueError
| TypeError
| KeyError
| OverflowError
| IOError
| JSONDecodeError
| UnicodeDecodeError
| RecursionError.

Inductive result (A : Type) : Type :=
| Ok (a : A)
| Raise (e : exn).
Arguments Ok {A} a.
Arguments Raise {A} e.

Definition bind {A B : Type} (m : result A) (k : A -> result B) : result B :=
  match m with
  | Ok a => k a
  | Raise e => Raise e
  end.

(** The value of a power: a float, or a complex number, which this
    program never inspects further than to compare it. *)
Inductive pynum : Type :=
| PyFloat (x : R)
| PyComplex.

#[global] Instance Rlt_decision (x y : R) : Decision (x < y)%R := Rlt_dec x y.
#[global] Instance Rle_decision (x y : R) : Decision (x <= y)%R := Rle_dec x y.

(** [a / b] on numbers. *)
Definition truediv (a b : R) : result R :=
  if Req_dec_T b 0 then Raise ZeroDivisionError else Ok (a / b)%R.

(** [b ** n] for a float [b] and an integer [n] (as in [x ** -1]). *)
Definition pow_int (b : R) (n : Z) : result R :=
  if Z.eqb n 0 then Ok 1%R
  else if Req_dec_T b 0 then
    (if Z.ltb n 0 then Raise ZeroDivisionError else Ok 0%R)
  else if Rlt_dec b 0 then
    Ok (if Z.odd n then (- Rpower (- b) (IZR n))%R else Rpower (- b) (IZR n))
  else Ok (Rpower b (IZR n)).

(** [b ** e] for two floats: an integral exponent behaves as the integer
    does; a negative base with any other exponent gives a complex number. *)
Definition pow (b e : R) : result pynum :=
  if Req_dec_T e (IZR (Int_part e)) then
    bind (pow_int b (Int_part e)) (fun x => Ok (PyFloat x))
  else if Req_dec_T b 0 then
    (if Rlt_dec e 0 then Raise ZeroDivisionError else Ok (PyFloat 0))
  else if Rlt_dec b 0 then Ok PyComplex
  else Ok (PyFloat (Rpower b e)).

(** [math.log(x)] *)
Definition math_log (x : R) : result R :=
  if Rlt_dec 0 x then Ok (ln x) else Raise ValueError.

(** [max(a, b)] and [min(a, b)]: the first argument is kept unless the
    second is strictly better. *)
Definition max (a b : R) : R := if Rlt_dec a b then b else a.
Definition min (a b : R) : R := if Rlt_dec b a then b else a.

(** [sys.float_info.epsilon], 2^-52: the distance from 1.0 to the next
    float.  A number of at least this size is not absorbed when 1 is added
    to it. *)
Definition float_epsilon : R := (/ 4503599627370496)%R.

(** [d[k]] *)
Definition getitem {V : Type} (d : gmap string V) (k : string) : result V :=
  match d !! k with
  | Some v => Ok v
  | None => Raise KeyError
  end.

(** [d.get(k, dflt)] *)
Definition get {V : Type} (d : gmap string V) (k : string) (dflt : V) : V :=
  default dflt (d !! k).

(** [min(l, key=...)]: the first element whose key is the least. *)
Fixpoint min_key_from {A : Type} (key : A -> Z) (best : A) (l : list A) : A :=
  match l with
  | [] => best
  | x :: l' => min_key_from key (if Z.ltb (key x) (key best) then x else best) l'
  end.

Definition min_key {A : Type} (key : A -> Z) (l : list A) : result A :=
  match l with
  | [] => Raise ValueError
  | x :: l' => Ok (min_key_from key x l')
  end.

(** [enumerate(l)]: each object with its position, which stands for the
    identity of the object. *)
Definition enumerate {A : Type} (l : list A) : list (nat * A) :=
  imap (fun i x => (i, x)) l.

(** *** datetime and timedelta *)

Definition us_per_day : Z := 86400000000.

(** Rounding to the nearest integer, ties to the even one. *)
Definition round_half_even (x : R) : Z :=
  let n := Int_part x in
  let f := frac_part x in
  if Rlt_dec f (1 / 2) then n
  else if Rlt_dec (1 / 2) f then (n + 1)%Z
  else if Z.even n then n else (n + 1)%Z.

(** [timedelta(days=x)] *)
Definition timedelta_days (x : R) : result Z :=
  let us := round_half_even (x * IZR us_per_day) in
  let days := (us `div` us_per_day)%Z in
  if (Z.leb (-999999999) days && Z.leb days 999999999)%bool
  then Ok us else Raise OverflowError.

(** [timedelta.total_seconds()] *)
Definition total_seconds (td : Z) : R := (IZR td / 1000000)%R.

(** The last microsecond of year 9999. *)
Definition datetime_max : Z := (3652059 * us_per_day - 1)%Z.

(** [d + td] *)
Definition datetime_add (d td : Z) : result Z :=
  let r := (d + td)%Z in
  if (Z.leb 0 r && Z.leb r datetime_max)%bool then Ok r else Raise OverflowError.

End Py.

Import Py.

#[global] Instance result_ret : MRet result := @Ok.
#[global] Instance result_bind : MBind result :=
  fun A B k m => Py.bind m k.

(** ** class FSRS *)

Module FSRS.

Local Open Scope R_scope.

(** [self.params] when the constructor is given none. *)
Definition default_params : gmap string R :=
  <["w1" := 1.0]> (<["w2" := 1.0]> (<["w3" := 1.0]> (<["w4" := 1.0]> (
  <["w5" := 1.0]> (<["w6" := 1.0]> (<["w7" := 1.0]> (<["w8" := 1.0]> (
  <["w11" := 1.0]> (<["w12" := 1.0]> (<["w15" := 1.0]> (<["w16" := 1.0]>
  ∅))))))))))).

Definition grade_map : gmap string Z :=
  <["Again" := 1%Z]> (<["Hard" := 2%Z]> (<["Good" := 3%Z]> (<["Easy" := 4%Z]> ∅))).

Definition difficulty_change : gmap string R :=
  <["Again" := 1.0]> (<["Hard" := 0.2]> (<["Good" := 0.0]> (<["Easy" := -0.2]> ∅))).

Definition calculate_retrievability (t S : R) : result R :=
  q ← truediv t S;
  i ← pow_int q (-1);
  pow_int (1 + i) (-1).

Definition stability_increase
    (params : gmap string R) (S D R_ : R) (grade : string) : result R :=
  let G := get grade_map grade 3%Z in
  let f_D := 11 - D in
  lS ← math_log (S + 1);
  l2 ← math_log 2;
  qS ← truediv lS l2;
  pS ← pow_int qS (-1);
  let f_S := max 1 pS in
  lR ← math_log (R_ + 1);
  l2' ← math_log 2;
  qR ← truediv lR l2';
  pR ← pow_int qR (-1);
  let f_R := max 1 pR in
  let w15 :=
    if decide (grade = "Again") then 0
    else if decide (grade ∈ ["Good"; "Easy"]) then 1 else 0.5 in
  let w16 := if decide (grade ∈ ["Hard"; "Good"]) then 1 else 3 in
  w1 ← getitem params "w1";
  let SInc := (f_D * f_S * f_R) * w1 * w15 * w16 in
  Ok (max 1 SInc).

Definition update_stability
    (params : gmap string R) (current_S D R_ : R) (grade : string) : result R :=
  if decide (grade = "Again") then
    w12 ← getitem params "w12";
    f_D ← pow D (- w12);
    w11 ← getitem params "w11";
    match f_D with
    | PyFloat f => Ok (min current_S (current_S * f * w11))
    | PyComplex => Raise TypeError
    end
  else
    inc ← stability_increase params current_S D R_ grade;
    Ok (current_S * inc).

Definition update_difficulty
    (params : gmap string R) (current_D : R) (grade : string) (R_ : R) : result R :=
  let D_change := get difficulty_change grade 0.0 in
  let D_new := current_D + D_change in
  w4 ← getitem params "w4";
  let D_new := D_new * 0.9 + w4 * 0.1 in
  Ok (max 1 (min 10 D_new)).

Definition predict_review_outcome (S D R_ : R) : result R :=
  q ← truediv 1 R_;
  l ← math_log (exp 1);
  d ← truediv (q - 1) (exp (S * l / 10));
  pow_int (1 + d) (-1).

(** The module-level [calculate_stability] of FSRS.py; the result is what
    it prints: new stability, new difficulty, success probability. *)
Definition calculate_stability
    (initial_stability initial_difficulty initial_retrievability : R)
    (grade : string) : result (R * R * R) :=
  let fsrs := default_params in
  let current_S := initial_stability in
  let current_D := initial_difficulty in
  R_ ← calculate_retrievability 1 current_S;
  success_probability ← predict_review_outcome current_S current_D R_;
  current_S' ← update_stability fsrs current_S current_D R_ grade;
  current_D' ← update_difficulty fsrs current_D grade R_;
  Ok (current_S', current_D', success_probability).

(** The arithmetic of [update_difficulty] on binary64 floats, with the
    default [w4]. *)
Definition update_difficulty_binary64 (current_D D_change : float) : float :=
  let D_new := (current_D + D_change)%float in
  let D_new := (D_new * 0.9 + 1.0 * 0.1)%float in
  let m := if PrimFloat.ltb D_new 10 then D_new else 10%float in
  if PrimFloat.ltb 1 m then m else 1%float.

End FSRS.

(** ** class FSRS on binary64 floats

    The same four functions with the arithmetic of the machine.  [+], [-],
    [*], [/] and the comparisons are the primitive operations of binary64;
    [**], [math.log] and [math.exp] are CPython's wrappers ([float_pow] of
    floatobject.c, [math_1] of mathmodule.c) around the C library, whose
    functions are parameters. *)

Module Binary64.

Local Open Scope float_scope.

Inductive pynum : Type :=
| PyFloat (x : float)
| PyComplex.

(** [a / b]: Python raises on a zero divisor, of either sign. *)
Definition truediv (a b : float) : result float :=
  if b =? 0 then Raise ZeroDivisionError else Ok (a / b).

(** [max(a, b)] and [min(a, b)]: the first argument is kept unless the
    second compares strictly better, which a NaN never does. *)
Definition max (a b : float) : float := if a <? b then b else a.
Definition min (a b : float) : float := if b <? a then b else a.

(** [x == floor(x)] and [fmod(fabs(x), 2.0) == 1.0], read off the mantissa
    and the exponent. *)
Definition is_integer (x : float) : bool :=
  match Prim2SF x with
  | S754_zero _ => true
  | S754_infinity _ => true
  | S754_nan => false
  | S754_finite _ m e =>
      if (0 <=? e)%Z then true else (Z.pos m mod 2 ^ (- e) =? 0)%Z
  end.

Definition is_odd_integer (x : float) : bool :=
  match Prim2SF x with
  | S754_finite _ m e =>
      if (0 <? e)%Z then false
      else ((Z.pos m mod 2 ^ (- e) =? 0)%Z && Z.odd (Z.pos m / 2 ^ (- e)))%bool
  | _ => false
  end.

Definition copysign (x y : float) : float :=
  if get_sign y then - abs x else abs x.

(** [math.e] *)
Definition math_e : float := 2.718281828459045.

Section Libm.

(** [log], [exp] and [pow] of the C library. *)
Variable libm_log : float -> float.
Variable libm_exp : float -> float.
Variable libm_pow : float -> float -> float.

(** [math.log(x)]: a domain error for zero and for negative numbers. *)
Definition math_log (x : float) : result float :=
  if x <=? 0 then Raise ValueError else Ok (libm_log x).

(** [math.exp(x)]: an infinite result of a finite argument is an overflow. *)
Definition math_exp (x : float) : result float :=
  let r := libm_exp x in
  if (is_nan r && negb (is_nan x))%bool then Raise ValueError
  else if (is_infinity r && is_finite x)%bool then Raise OverflowError
  else Ok r.

(** [iv ** iw]: the special cases CPython sorts out itself, in its order,
    then the library, whose infinite result is an overflow. *)
Definition pow (iv iw : float) : result pynum :=
  if iw =? 0 then Ok (PyFloat 1)
  else if is_nan iv then Ok (PyFloat iv)
  else if is_nan iw then Ok (PyFloat (if iv =? 1 then 1 else iw))
  else if is_infinity iw then
    if abs iv =? 1 then Ok (PyFloat 1)
    else if Bool.eqb (0 <? iw) (1 <? abs iv) then Ok (PyFloat (abs iw))
    else Ok (PyFloat 0)
  else if is_infinity iv then
    if 0 <? iw then Ok (PyFloat (if is_odd_integer iw then iv else abs iv))
    else Ok (PyFloat (if is_odd_integer iw then copysign 0 iv else 0))
  else if iv =? 0 then
    if iw <? 0 then Raise ZeroDivisionError
    else Ok (PyFloat (if is_odd_integer iw then iv else 0))
  else if ((iv <? 0) && negb (is_integer iw))%bool then Ok PyComplex
  else
    let negate_result := ((iv <? 0) && is_odd_integer iw)%bool in
    let iv := if iv <? 0 then - iv else iv in
    if iv =? 1 then Ok (PyFloat (if negate_result then -1 else 1))
    else
      let ix := libm_pow iv iw in
      if is_infinity ix then Raise OverflowError
      else Ok (PyFloat (if negate_result then - ix else ix)).

(** A power used as a float: in a sum or in [max]; a complex number there
    is a TypeError. *)
Definition pow_float (b e : float) : result float :=
  p ← pow b e;
  match p with
  | PyFloat x => Ok x
  | PyComplex => Raise TypeError
  end.

Definition calculate_retrievability (t S : float) : result float :=
  q ← truediv t S;
  i ← pow_float q (-1);
  pow_float (1 + i) (-1).

Definition stability_increase
    (params : gmap string float) (S D R_ : float) (grade : string) : result float :=
  let G := get FSRS.grade_map grade 3%Z in
  let f_D := 11 - D in
  lS ← math_log (S + 1);
  l2 ← math_log 2;
  qS ← truediv lS l2;
  pS ← pow_float qS (-1);
  let f_S := max 1 pS in
  lR ← math_log (R_ + 1);
  l2' ← math_log 2;
  qR ← truediv lR l2';
  pR ← pow_float qR (-1);
  let f_R := max 1 pR in
  let w15 :=
    if decide (grade = "Again") then 0
    else if decide (grade ∈ ["Good"; "Easy"]) then 1 else 0.5 in
  let w16 := if decide (grade ∈ ["Hard"; "Good"]) then 1 else 3 in
  w1 ← getitem params "w1";
  let SInc := (f_D * f_S * f_R) * w1 * w15 * w16 in
  Ok (max 1 SInc).

Definition update_stability
    (params : gmap string float) (current_S D R_ : float) (grade : string)
    : result float :=
  if decide (grade = "Again") then
    w12 ← getitem params "w12";
    f_D ← pow D (- w12);
    w11 ← getitem params "w11";
    match f_D with
    | PyFloat f => Ok (min current_S (current_S * f * w11))
    | PyComplex => Raise TypeError
    end
  else
    inc ← stability_increase params current_S D R_ grade;
    Ok (current_S * inc).

Definition predict_review_outcome (S D R_ : float) : result float :=
  q ← truediv 1 R_;
  l ← math_log math_e;
  x ← math_exp (S * l / 10);
  d ← truediv (q - 1) x;
  pow_float (1 + d) (-1).

End Libm.

Definition default_params : gmap string float :=
  <["w1" := 1.0]> (<["w2" := 1.0]> (<["w3" := 1.0]> (<["w4" := 1.0]> (
  <["w5" := 1.0]> (<["w6" := 1.0]> (<["w7" := 1.0]> (<["w8" := 1.0]> (
  <["w11" := 1.0]> (<["w12" := 1.0]> (<["w15" := 1.0]> (<["w16" := 1.0]>
  ∅))))))))))).

(** The values of the library's [log] at 1 and at 2, as Python prints
    them: what the closed examples need of it. *)
Definition log_at_1_and_2 (x : float) : float :=
  if x =? 1 then 0 else if x =? 2 then 0.6931471805599453 else nan.

End Binary64.

(** ** class PhysicsQuestion and class PhysicsFlashcardStudyApp *)

Module App.

Record PhysicsQuestion : Type := {
  question_type : string;
  stability : R;
  difficulty : R;
  last_reviewed : Z;
  next_review : Z
}.

(** [PhysicsQuestion.__init__]; [now1] and [now2] are its two readings of
    the clock. *)
Definition PhysicsQuestion_init (question_type : string) (now1 now2 : Z)
    : PhysicsQuestion :=
  {| question_type := question_type;
     stability := 0.0001;
     difficulty := 5.0;
     last_reviewed := now1;
     next_review := now2 |}.

Record PhysicsFlashcardStudyApp : Type := {
  fsrs : gmap string R;
  study_duration : Z;
  start_time : Z;
  questions : list PhysicsQuestion
}.

(** The assignments of lines 244 to 250 to the attributes of the object. *)
Definition set_review (q : PhysicsQuestion) (S D : R) (next : Z) : PhysicsQuestion :=
  {| question_type := question_type q;
     stability := S;
     difficulty := D;
     last_reviewed := last_reviewed q;
     next_review := next |}.

Section run_study_session.

Variable self : PhysicsFlashcardStudyApp.

Definition min_stability_days : R :=
  max 0.1 (total_seconds (study_duration self) / (24 * 3600)).

(** [all(q.stability >= min_stability_days for q in self.questions)] *)
Definition all_stable : bool :=
  forallb (fun q => if Rge_dec (stability q) min_stability_days then true else false)
          (questions self).

(** Lines 208 to 210. *)
Definition reviewable_questions (current_time : Z) : list (nat * PhysicsQuestion) :=
  let due := filter (fun iq : nat * PhysicsQuestion =>
                       (next_review iq.2 <= current_time)%Z)
                    (enumerate (questions self)) in
  match due with
  | [] => enumerate (questions self)
  | _ :: _ => due
  end.

(** Line 212. *)
Definition question_to_review (current_time : Z) : result (nat * PhysicsQuestion) :=
  min_key (fun iq : nat * PhysicsQuestion => next_review iq.2)
          (reviewable_questions current_time).

(** Lines 243 to 250: the grade, already capitalized, is applied to the
    selected object, which sits at position [iq.1] of [self.questions];
    [now] is the clock read on line 250. *)
Definition review (iq : nat * PhysicsQuestion) (grade : string) (now : Z)
    : result PhysicsFlashcardStudyApp :=
  let q := iq.2 in
  let n := INR (length (questions self)) in
  S ← FSRS.update_stability (fsrs self) (stability q) (difficulty q) n grade;
  D ← FSRS.update_difficulty (fsrs self) (difficulty q) grade n;
  td ← timedelta_days S;
  next ← datetime_add now td;
  Ok {| fsrs := fsrs self;
        study_duration := study_duration self;
        start_time := start_time self;
        questions := <[iq.1 := set_review q S D next]> (questions self) |}.

End run_study_session.

End App.

Import App.

(** ** The operations as the specification words them

    These definitions follow the text of the specification, to be compared
    with the code above. *)

Module Spec.

Local Open Scope R_scope.

(** "R = (1 + elapsed_days/S)^-1" *)
Definition retrievability (elapsed_days S : R) : R := / (1 + elapsed_days / S).

(** "candidate set = items whose next_review ≤ current_time; if empty,
    candidate set = all non-mastered items" *)
Definition candidates (mastery_threshold : R) (items : list PhysicsQuestion)
    (current_time : Z) : list PhysicsQuestion :=
  let due := filter (fun q => (next_review q <= current_time)%Z) items in
  match due with
  | [] => filter (fun q => stability q < mastery_threshold) items
  | _ :: _ => due
  end.

(** "item with the earliest next_review wins; ties broken by a stable
    secondary key (identifier)" *)
Definition wins (q q' : PhysicsQuestion) : Prop :=
  (next_review q < next_review q')%Z \/
  (next_review q = next_review q' /\ String.leb (question_type q) (question_type q') = true).

Definition select_next (mastery_threshold : R) (items : list PhysicsQuestion)
    (current_time : Z) (q : PhysicsQuestion) : Prop :=
  q ∈ candidates mastery_threshold items current_time /\
  forall q', q' ∈ candidates mastery_threshold items current_time -> wins q q'.

End Spec.

(** ** What a selection must satisfy

    The candidates of a selection as the code forms them: the questions that
    are due, or every question when none is due; and the order in which one
    candidate is preferred to another: earlier [next_review], then earlier
    position in [self.questions]. *)

Module Selection.

Definition some_due (self : PhysicsFlashcardStudyApp) (current_time : Z) : Prop :=
  exists q, q ∈ questions self /\ (next_review q <= current_time)%Z.

Definition candidate (self : PhysicsFlashcardStudyApp) (current_time : Z)
    (iq : nat * PhysicsQuestion) : Prop :=
  questions self !! iq.1 = Some iq.2 /\
  (some_due self current_time -> (next_review iq.2 <= current_time)%Z).

Definition preferred (iq iq' : nat * PhysicsQuestion) : Prop :=
  (next_review iq.2 < next_review iq'.2)%Z \/
  (next_review iq.2 = next_review iq'.2 /\ iq.1 <= iq'.1).

(** The order of the positions, along which [enumerate] lists the objects. *)
Definition by_position {A : Type} (a b : nat * A) : Prop := (a.1 < b.1)%nat.

End Selection.

(** ** Sessions used as examples *)

Module Sample.

(** A session of 60 minutes over two questions, none of them due at
    time 0: the first is far above the stability the session asks for,
    the second is new. *)
Definition q_stable : PhysicsQuestion :=
  {| question_type := "kinematics"; stability := 100; difficulty := 5.0;
     last_reviewed := 0; next_review := 5 |}.

Definition q_new : PhysicsQuestion :=
  {| question_type := "dynamics"; stability := 0.0001; difficulty := 5.0;
     last_reviewed := 0; next_review := 10 |}.

Definition session (qs : list PhysicsQuestion) : PhysicsFlashcardStudyApp :=
  {| fsrs := FSRS.default_params; study_duration := 3600000000;
     start_time := 0; questions := qs |}.

(** Two questions due at the same time. *)
Definition q_kinematics : PhysicsQuestion := PhysicsQuestion_init "kinematics" 0 0.
Definition q_dynamics : PhysicsQuestion := PhysicsQuestion_init "dynamics" 0 0.

(** A question restored from a saved session: stability of one day,
    last reviewed at time 0. *)
Definition q_saved : PhysicsQuestion :=
  {| question_type := "kinematics"; stability := 1; difficulty := 5.0;
     last_reviewed := 0; next_review := 0 |}.

End Sample.

(** ** The rest of main.py: questions, answers, one turn of the session *)

Module Session.

Local Open Scope R_scope.

(** [round(x, 2)] *)
Definition round2 (x : R) : R := IZR (round_half_even (x * 100)) / 100.

(** [random.uniform(a, b)] is [a + (b - a) * random()]; [u] is the value of
    [random()], a number of [0, 1). *)
Definition uniform (a b u : R) : R := a + (b - a) * u.

(** The generators return a dictionary with a question text, the answer and
    the text of the solution steps.  The embedding keeps the entry ['answer'],
    the one the session computes with; [u 0], [u 1], ... are the successive
    values of [random()]. *)
Definition generate_kinematics_question (u : nat -> R) : result R :=
  let initial_velocity := round2 (uniform 0 20 (u 0%nat)) in
  let acceleration := round2 (uniform 0.5 5 (u 1%nat)) in
  let time := round2 (uniform 1 10 (u 2%nat)) in
  let final_velocity := initial_velocity + acceleration * time in
  Ok (round2 final_velocity).

Definition generate_dynamics_question (u : nat -> R) : result R :=
  let mass := round2 (uniform 1 100 (u 0%nat)) in
  let acceleration := round2 (uniform 0.5 10 (u 1%nat)) in
  let force := mass * acceleration in
  Ok (round2 force).

Definition generate_energy_question (u : nat -> R) : result R :=
  let mass := round2 (uniform 1 50 (u 0%nat)) in
  let height := round2 (uniform 1 20 (u 1%nat)) in
  let g := 9.8 in
  let potential_energy := mass * g * height in
  Ok (round2 potential_energy).

Definition generate_circular_motion_question (u : nat -> R) : result R :=
  let radius := round2 (uniform 1 10 (u 0%nat)) in
  let velocity := round2 (uniform 5 30 (u 1%nat)) in
  v2 ← pow_int velocity 2;
  centripetal_acceleration ← truediv v2 radius;
  Ok (round2 centripetal_acceleration).

Definition methods : gmap string ((nat -> R) -> result R) :=
  <["kinematics" := generate_kinematics_question]> (
  <["dynamics" := generate_dynamics_question]> (
  <["energy" := generate_energy_question]> (
  <["circular_motion" := generate_circular_motion_question]> ∅))).

(** [PhysicsQuestion.generate_question] *)
Definition generate_question (self : PhysicsQuestion) (u : nat -> R) : result R :=
  m ← getitem methods (question_type self);
  m u.

(** Lines 233 to 235. *)
Definition is_correct (user_answer correct_answer : R) : bool :=
  let tolerance := 0.1 * Rabs correct_answer in
  bool_decide (Rabs (user_answer - correct_answer) <= tolerance).

(** How one turn of the loop of [run_study_session] ends. *)
Inductive turn : Type :=
| TimeUp
| AllStable
| Next (self : PhysicsFlashcardStudyApp).

(** The difference of two [timedelta], within the range of [timedelta]. *)
Definition timedelta_sub (a b : Z) : result Z :=
  let us := (a - b)%Z in
  let days := (us `div` us_per_day)%Z in
  if (Z.leb (-999999999) days && Z.leb days 999999999)%bool
  then Ok us else Raise OverflowError.

(** One turn of the loop.  [t199], [t200], [t250] and [t251] are the clock
    as read on those lines, [u] the values of [random()], [user_answer] the
    number typed, [None] when [float] raises ValueError on what was typed,
    and [grade] the capitalized grade typed.  The last steps are the
    remaining time of line 252 and the division of the progress report of
    line 253. *)
Definition loop_turn (self : PhysicsFlashcardStudyApp) (t199 t200 : Z)
    (u : nat -> R) (user_answer : option R) (grade : string) (t250 t251 : Z)
    : result turn :=
  if bool_decide (t199 - start_time self < study_duration self)%Z then
    if all_stable self then Ok AllStable
    else
      question_to_review ← App.question_to_review self t200;
      correct_answer ← generate_question question_to_review.2 u;
      match user_answer with
      | None => Ok (Next self)
      | Some user_answer =>
          let correct := is_correct user_answer correct_answer in
          self' ← review self question_to_review grade t250;
          let elapsed_time := (t251 - start_time self')%Z in
          remaining_time ← timedelta_sub (study_duration self') elapsed_time;
          progress ← truediv (total_seconds elapsed_time)
                             (total_seconds (study_duration self'));
          Ok (Next self')
      end
  else Ok TimeUp.

(** A session as the program starts it: default parameters, and questions
    of positive stability, difficulty in [1, 10] and known type. *)
Definition well_formed (self : PhysicsFlashcardStudyApp) : Prop :=
  fsrs self = FSRS.default_params /\
  Forall (fun q => 0 < stability q /\ 1 <= difficulty q <= 10 /\
                   is_Some (methods !! question_type q))
         (questions self).

(** *** [main]: the categories *)

Definition category_map : gmap string string :=
  <["1" := "kinematics"]> (<["2" := "dynamics"]> (<["3" := "energy"]> (
  <["4" := "circular_motion"]> ∅))).

(** Lines 284 to 295; [tokens] are the stripped pieces of the line typed. *)
Definition selected_categories (tokens : list string) : option (list string) :=
  let categories := omap (fun cat => category_map !! cat) tokens in
  match categories with
  | [] => None
  | _ :: _ => Some categories
  end.

(** *** Saving and restoring *)

Definition default_categories : list string :=
  ["kinematics"; "dynamics"; "energy"; "circular_motion"].

(** [timedelta(minutes=m)] for an integer [m] *)
Definition timedelta_minutes (m : Z) : result Z :=
  let us := (m * 60000000)%Z in
  let days := (us `div` us_per_day)%Z in
  if (Z.leb (-999999999) days && Z.leb days 999999999)%bool
  then Ok us else Raise OverflowError.

Section Persistence.

(** The text of a date in the file, with [datetime.isoformat] and
    [datetime.fromisoformat], which are not part of this program. *)
Variable iso : Type.
Variable isoformat : Z -> iso.
Variable fromisoformat : iso -> result Z.

(** An entry of the saved list, with the five keys [save_data] writes. *)
Record saved : Type := {
  saved_question_type : string;
  saved_stability : R;
  saved_difficulty : R;
  saved_last_reviewed : iso;
  saved_next_review : iso
}.

(** [save_data]: the list handed to [json.dump]. *)
Definition save_data (self : PhysicsFlashcardStudyApp) : list saved :=
  map (fun q => {| saved_question_type := question_type q;
                   saved_stability := stability q;
                   saved_difficulty := difficulty q;
                   saved_last_reviewed := isoformat (last_reviewed q);
                   saved_next_review := isoformat (next_review q) |})
      (questions self).

(** [load_previous_data].  There is no file ([None]), or there is one and
    reading it, [open] followed by [json.load], returns the saved list or
    raises an exception.  Of the exceptions only IOError and
    JSONDecodeError are caught; any other one, such as UnicodeDecodeError
    for bytes that are no text or RecursionError for a nesting too deep,
    leaves the function. *)
Definition load_previous_data (file : option (result (list saved)))
    : result (list saved) :=
  match file with
  | Some (Ok data) => Ok data
  | Some (Raise JSONDecodeError) => Ok []
  | Some (Raise IOError) => Ok []
  | Some (Raise e) => Raise e
  | None => Ok []
  end.

(** The loop of [__init__] over the categories; [clock k] is the [k]-th
    reading of the clock, a new [PhysicsQuestion] reading it twice. *)
Fixpoint init_questions (existing_data : list saved) (categories : list string)
    (clock : nat -> Z) (k : nat) : result (list PhysicsQuestion) :=
  match categories with
  | [] => Ok []
  | category :: categories' =>
      match list_find (fun q => saved_question_type q = category) existing_data with
      | Some (_, existing_question) =>
          last ← fromisoformat (saved_last_reviewed existing_question);
          next ← fromisoformat (saved_next_review existing_question);
          let question :=
            {| question_type := category;
               stability := saved_stability existing_question;
               difficulty := saved_difficulty existing_question;
               last_reviewed := last;
               next_review := next |} in
          rest ← init_questions existing_data categories' clock (k + 2);
          Ok (question :: rest)
      | None =>
          let question :=
            {| question_type := category;
               stability := 0.0001;
               difficulty := 5.0;
               last_reviewed := clock k;
               next_review := clock (k + 2)%nat |} in
          rest ← init_questions existing_data categories' clock (k + 3);
          Ok (question :: rest)
      end
  end.

(** [PhysicsFlashcardStudyApp.__init__] *)
Definition init (study_duration : Z) (categories : option (list string))
    (file : option (result (list saved))) (clock : nat -> Z)
    : result PhysicsFlashcardStudyApp :=
  duration ← timedelta_minutes study_duration;
  let start := clock 0%nat in
  let categories := default default_categories categories in
  existing_data ← load_previous_data file;
  qs ← init_questions existing_data categories clock 1;
  Ok {| fsrs := FSRS.default_params;
        study_duration := duration;
        start_time := start;
        questions := qs |}.

End Persistence.

End Session.

(** * Properties *)

Local Open Scope R_scope.

(** Goals on concrete minima and maxima, by cases. *)
Ltac minmax_cases :=
  unfold Rmax, Rmin; repeat destruct (Rle_dec _ _); lra.

(** ** Python built-ins *)

Section Builtins.

Lemma bind_Ok {A B : Type} (a : A) (k : A -> result B) :
  (Ok a ≫= k) = k a.
Proof. reflexivity. Qed.

Lemma bind_Raise {A B : Type} (e : exn) (k : A -> result B) :
  (Raise e ≫= k) = Raise e.
Proof. reflexivity. Qed.

Lemma truediv_Ok (a b : R) : b <> 0 -> truediv a b = Ok (a / b).
Proof. intros Hb. unfold truediv. destruct (Req_dec_T b 0); [contradiction|reflexivity]. Qed.

Lemma truediv_zero (a : R) : truediv a 0 = Raise ZeroDivisionError.
Proof. unfold truediv. destruct (Req_dec_T 0 0); [reflexivity|contradiction]. Qed.

Lemma Rpower_neg1 (x : R) : 0 < x -> Rpower x (-1) = / x.
Proof.
  intros Hx. replace (-1) with (- (1)) by lra.
  rewrite Rpower_Ropp, Rpower_1 by assumption. reflexivity.
Qed.

(** [x ** -1] is the inverse of a number that is not zero. *)
Lemma pow_int_neg1 (x : R) : x <> 0 -> pow_int x (-1) = Ok (/ x).
Proof.
  intros Hx. unfold pow_int. simpl.
  destruct (Req_dec_T x 0) as [|_]; [contradiction|].
  destruct (Rlt_dec x 0) as [Hneg|Hpos]; f_equal.
  - rewrite Rpower_neg1 by lra. field. lra.
  - apply Rpower_neg1. lra.
Qed.

Lemma pow_int_neg1_zero : pow_int 0 (-1) = Raise ZeroDivisionError.
Proof.
  unfold pow_int. simpl. destruct (Req_dec_T 0 0); [reflexivity|contradiction].
Qed.

Lemma Int_part_IZR (z : Z) : Int_part (IZR z) = z.
Proof. symmetry. apply Int_part_spec. lra. Qed.

Lemma frac_part_IZR (z : Z) : frac_part (IZR z) = 0.
Proof. unfold frac_part. rewrite Int_part_IZR. lra. Qed.

(** [b ** e] for a positive base is the real power. *)
Lemma pow_pos (b e : R) : 0 < b -> pow b e = Ok (PyFloat (Rpower b e)).
Proof.
  intros Hb. unfold pow.
  destruct (Req_dec_T e (IZR (Int_part e))) as [He|He].
  - unfold pow_int. destruct (Z.eqb_spec (Int_part e) 0) as [H0|H0].
    + simpl. rewrite He, H0, Rpower_O by assumption. reflexivity.
    + destruct (Req_dec_T b 0); [lra|].
      destruct (Rlt_dec b 0); [lra|]. simpl. rewrite <- He. reflexivity.
  - destruct (Req_dec_T b 0); [lra|]. destruct (Rlt_dec b 0); [lra|reflexivity].
Qed.

Lemma math_log_pos (x : R) : 0 < x -> math_log x = Ok (ln x).
Proof. intros Hx. unfold math_log. destruct (Rlt_dec 0 x); [reflexivity|contradiction]. Qed.

Lemma math_log_nonpos (x : R) : x <= 0 -> math_log x = Raise ValueError.
Proof. intros Hx. unfold math_log. destruct (Rlt_dec 0 x); [lra|reflexivity]. Qed.

Lemma ln_2_pos : 0 < ln 2.
Proof. rewrite <- ln_1. apply ln_increasing; lra. Qed.

Lemma max_Rmax (a b : R) : max a b = Rmax a b.
Proof.
  unfold max, Rmax. destruct (Rlt_dec a b), (Rle_dec a b); try reflexivity; lra.
Qed.

Lemma min_Rmin (a b : R) : min a b = Rmin a b.
Proof.
  unfold min, Rmin. destruct (Rlt_dec b a), (Rle_dec a b); try reflexivity; lra.
Qed.

Lemma max_ge_l (a b : R) : a <= max a b.
Proof. rewrite max_Rmax. apply Rmax_l. Qed.

Lemma min_le_l (a b : R) : min a b <= a.
Proof. rewrite min_Rmin. apply Rmin_l. Qed.

Lemma getitem_Some {V : Type} (d : gmap string V) (k : string) (v : V) :
  d !! k = Some v -> getitem d k = Ok v.
Proof. intros H. unfold getitem. rewrite H. reflexivity. Qed.

Lemma ln_succ_pos (x : R) : 0 < x -> 0 < ln (x + 1).
Proof. intros Hx. rewrite <- ln_1. apply ln_increasing; lra. Qed.

Lemma ln_succ_neg (x : R) : -1 < x -> x < 0 -> ln (x + 1) < 0.
Proof. intros H1 H0. rewrite <- ln_1. apply ln_increasing; lra. Qed.

End Builtins.

(** ** The memory model *)

Section MemoryModel.

Import FSRS.

(** The expression [(math.log(x + 1) / math.log(2)) ** -1] of
    [stability_increase]. *)
Local Abbreviation log2_inverse x :=
  (l ← math_log (x + 1); l2 ← math_log 2; q ← truediv l l2; pow_int q (-1)).

Lemma log2_inverse_Ok (x : R) :
  -1 < x -> x <> 0 -> log2_inverse x = Ok (/ (ln (x + 1) / ln 2)).
Proof.
  intros H1 H0. pose proof ln_2_pos as H2.
  assert (ln (x + 1) <> 0) as Hl.
  { destruct (Rlt_dec 0 x).
    - apply Rgt_not_eq, ln_succ_pos. assumption.
    - apply Rlt_not_eq, ln_succ_neg; lra. }
  rewrite (math_log_pos (x + 1)), (math_log_pos 2) by lra.
  rewrite !bind_Ok, truediv_Ok by lra. rewrite bind_Ok.
  apply pow_int_neg1. unfold Rdiv. apply Rmult_integral_contrapositive_currified.
  - assumption.
  - apply Rinv_neq_0_compat. lra.
Qed.

Lemma log2_inverse_zero : log2_inverse 0 = Raise ZeroDivisionError.
Proof.
  pose proof ln_2_pos as H2.
  rewrite (math_log_pos (0 + 1)), (math_log_pos 2) by lra.
  rewrite !bind_Ok, truediv_Ok by lra. rewrite bind_Ok.
  replace (ln (0 + 1) / ln 2) with 0.
  - apply pow_int_neg1_zero.
  - replace (0 + 1) with 1 by lra. rewrite ln_1. field. lra.
Qed.

Lemma log2_inverse_ValueError (x : R) : x <= -1 -> log2_inverse x = Raise ValueError.
Proof. intros Hx. rewrite (math_log_nonpos (x + 1)) by lra. reflexivity. Qed.

(** On (0, 1] the inverse of the binary logarithm of [x + 1] is at least 1;
    above 1 it is below 1. *)
Lemma log2_inverse_ge_1 (x : R) : 0 < x <= 1 -> 1 <= / (ln (x + 1) / ln 2).
Proof.
  intros [H0 H1]. pose proof ln_2_pos as H2. pose proof (ln_succ_pos x H0) as Hl.
  assert (ln (x + 1) <= ln 2) as Hle.
  { destruct (Req_dec x 1) as [->|Hne].
    - replace (1 + 1) with 2 by lra. lra.
    - left. apply ln_increasing; lra. }
  replace (/ (ln (x + 1) / ln 2)) with (ln 2 / ln (x + 1)) by (field; lra).
  apply (Rmult_le_reg_r (ln (x + 1))); [assumption|].
  unfold Rdiv. rewrite Rmult_assoc, Rinv_l by lra. lra.
Qed.

(** [stability_increase] as two evaluations of that expression, the
    look-up of [w1] and the final [max]. *)
Lemma stability_increase_unfold (params : gmap string R) (S D R_ : R) (grade : string) :
  stability_increase params S D R_ grade =
  (pS ← log2_inverse S;
   pR ← log2_inverse R_;
   w1 ← getitem params "w1";
   Ok (max 1 ((11 - D) * max 1 pS * max 1 pR * w1
              * (if decide (grade = "Again") then 0
                 else if decide (grade ∈ ["Good"; "Easy"]) then 1 else 0.5)
              * (if decide (grade ∈ ["Hard"; "Good"]) then 1 else 3)))).
Proof.
  unfold stability_increase.
  destruct (math_log (S + 1)) as [lS|]; [|reflexivity].
  destruct (math_log 2) as [l2|]; [|reflexivity]. simpl.
  destruct (truediv lS l2) as [qS|]; [|reflexivity]. simpl.
  destruct (pow_int qS (-1)) as [pS|]; [|reflexivity]. simpl.
  destruct (math_log (R_ + 1)) as [lR|]; [|reflexivity]. simpl.
  destruct (truediv lR l2) as [qR|]; [|reflexivity]. simpl.
  destruct (pow_int qR (-1)) as [pR|]; reflexivity.
Qed.

(** The value of [stability_increase] wherever it returns one. *)
Lemma stability_increase_value
    (params : gmap string R) (w1 S D R_ : R) (grade : string) :
  params !! "w1" = Some w1 ->
  -1 < S -> S <> 0 -> -1 < R_ -> R_ <> 0 ->
  stability_increase params S D R_ grade =
  Ok (Rmax 1 ((11 - D) * Rmax 1 (/ (ln (S + 1) / ln 2))
              * Rmax 1 (/ (ln (R_ + 1) / ln 2)) * w1
              * (if decide (grade = "Again") then 0
                 else if decide (grade ∈ ["Good"; "Easy"]) then 1 else 0.5)
              * (if decide (grade ∈ ["Hard"; "Good"]) then 1 else 3))).
Proof.
  intros Hw1 HS HS0 HR HR0. rewrite stability_increase_unfold.
  rewrite (log2_inverse_Ok S), bind_Ok by assumption.
  rewrite (log2_inverse_Ok R_), bind_Ok by assumption.
  rewrite (getitem_Some _ _ _ Hw1), bind_Ok.
  rewrite !max_Rmax. reflexivity.
Qed.

(** The lapse branch of [update_stability], for a positive difficulty. *)
Lemma update_stability_Again_value
    (params : gmap string R) (w11 w12 S D R_ : R) :
  params !! "w12" = Some w12 -> params !! "w11" = Some w11 -> 0 < D ->
  update_stability params S D R_ "Again"
    = Ok (Rmin S (S * Rpower D (- w12) * w11)).
Proof.
  intros H12 H11 HD. unfold update_stability. simpl.
  rewrite (getitem_Some _ _ _ H12), bind_Ok.
  rewrite pow_pos, bind_Ok by lra.
  rewrite (getitem_Some _ _ _ H11), bind_Ok.
  rewrite min_Rmin. reflexivity.
Qed.

(** The other branch. *)
Lemma update_stability_not_Again
    (params : gmap string R) (S D R_ : R) (grade : string) :
  grade <> "Again" ->
  update_stability params S D R_ grade
    = (inc ← stability_increase params S D R_ grade; Ok (S * inc)).
Proof.
  intros Hg. unfold update_stability.
  destruct (decide (grade = "Again")); [contradiction|reflexivity].
Qed.

(** What [calculate_retrievability] computes: [t / (t + S)]. *)
Lemma calculate_retrievability_value (t S : R) :
  t <> 0 -> S <> 0 -> t + S <> 0 ->
  calculate_retrievability t S = Ok (t / (t + S)).
Proof.
  intros Ht HS HtS. unfold calculate_retrievability.
  rewrite truediv_Ok, bind_Ok by assumption.
  assert (t / S <> 0) as Hq.
  { unfold Rdiv. apply Rmult_integral_contrapositive_currified; [assumption|].
    apply Rinv_neq_0_compat. assumption. }
  rewrite pow_int_neg1, bind_Ok by assumption.
  assert (1 + / (t / S) = (t + S) / t) as Heq by (field; split; assumption).
  rewrite pow_int_neg1.
  - f_equal. rewrite Heq. field. split; assumption.
  - rewrite Heq. unfold Rdiv. apply Rmult_integral_contrapositive_currified; [assumption|].
    apply Rinv_neq_0_compat. assumption.
Qed.

Lemma calculate_retrievability_S_zero (t : R) :
  calculate_retrievability t 0 = Raise ZeroDivisionError.
Proof. unfold calculate_retrievability. rewrite truediv_zero. reflexivity. Qed.

(** [update_difficulty] for each key of [difficulty_change] and for any
    other string. *)
Lemma difficulty_change_get (grade : string) :
  get difficulty_change grade 0.0 =
  if decide (grade = "Again") then 1.0
  else if decide (grade = "Hard") then 0.2
  else if decide (grade = "Good") then 0.0
  else if decide (grade = "Easy") then -0.2
  else 0.0.
Proof.
  unfold get, difficulty_change.
  repeat (case_decide; [subst; reflexivity|]).
  rewrite !lookup_insert_ne, lookup_empty by congruence. reflexivity.
Qed.

Lemma update_difficulty_value
    (params : gmap string R) (w4 D R_ : R) (grade : string) :
  params !! "w4" = Some w4 ->
  update_difficulty params D grade R_
    = Ok (Rmax 1 (Rmin 10 (0.9 * (D + get difficulty_change grade 0.0) + 0.1 * w4))).
Proof.
  intros H4. unfold update_difficulty.
  rewrite (getitem_Some _ _ _ H4), bind_Ok, max_Rmax, min_Rmin.
  do 3 f_equal. lra.
Qed.

Lemma clamp_bounds (x : R) : 1 <= Rmax 1 (Rmin 10 x) <= 10.
Proof.
  split; [apply Rmax_l|]. apply Rmax_lub; [lra|apply Rmin_l].
Qed.

End MemoryModel.

(** ** The memory model on binary64 *)

(** C1. On binary64 the claim fails for the stabilities that the sum
    [S + 1] absorbs, those below 2^-53.  The library's [log] being 0 at 1
    and the float 0.6931471805599453 at 2, [math.log(S + 1)] is then 0.0,
    its quotient by [math.log(2)] is 0.0, and [** -1] raises
    ZeroDivisionError: [stability_increase] returns no factor, for any
    grade, difficulty, retrievability and parameter set, and
    [update_stability] returns no stability for any grade other than
    Again, where the claim has a stability of at least [S]. *)
Theorem update_stability_absorbed
    (libm_log : float -> float) (libm_pow : float -> float -> float)
    (params : gmap string float) (S D R_ : float) (grade : string) :
  libm_log 1%float = 0%float ->
  libm_log 2%float = 0.6931471805599453%float ->
  (S + 1)%float = 1%float ->
  Binary64.stability_increase libm_log libm_pow params S D R_ grade
    = Raise ZeroDivisionError /\
  (grade <> "Again" ->
   Binary64.update_stability libm_log libm_pow params S D R_ grade
     = Raise ZeroDivisionError).
Proof.
  intros Hlog1 Hlog2 HS.
  assert (Binary64.stability_increase libm_log libm_pow params S D R_ grade
          = Raise ZeroDivisionError) as Hinc.
  { unfold Binary64.stability_increase, Binary64.math_log.
    rewrite HS. simpl. rewrite Hlog1, Hlog2. reflexivity. }
  split; [exact Hinc|]. intros Hg. unfold Binary64.update_stability.
  destruct (decide (grade = "Again")); [contradiction|].
  rewrite Hinc. reflexivity.
Qed.

(** The stability and the difficulty of a new question after fourteen
    reviews graded Again, in a session of one question, graded Good. *)
Lemma update_stability_absorbed_witness :
  Binary64.stability_increase Binary64.log_at_1_and_2 (fun b e => (1 / b)%float)
    Binary64.default_params 1.1008708563598049e-16 8.85616037725195 1 "Good"
    = Raise ZeroDivisionError /\
  Binary64.update_stability Binary64.log_at_1_and_2 (fun b e => (1 / b)%float)
    Binary64.default_params 1.1008708563598049e-16 8.85616037725195 1 "Good"
    = Raise ZeroDivisionError.
Proof.
  assert (Binary64.log_at_1_and_2 1%float = 0%float) as H1 by reflexivity.
  assert (Binary64.log_at_1_and_2 2%float = 0.6931471805599453%float) as H2
    by reflexivity.
  assert ((1.1008708563598049e-16 + 1)%float = 1%float) as HS by reflexivity.
  assert ("Good" <> "Again") as Hg by discriminate.
  destruct (update_stability_absorbed Binary64.log_at_1_and_2
              (fun b e => (1 / b)%float) Binary64.default_params
              1.1008708563598049e-16 8.85616037725195 1 "Good" H1 H2 HS)
    as [Hinc Hup].
  split; [exact Hinc|exact (Hup Hg)].
Defined.

(** A lapse of the least positive float, at difficulty 10, gives the
    stability 0.0: the product underflows ([10.0 ** -1.0] is 0.1). *)
Lemma update_stability_underflow
    (libm_log : float -> float) (libm_pow : float -> float -> float) (R_ : float) :
  libm_pow 10%float (-1)%float = 0.1%float ->
  Binary64.update_stability libm_log libm_pow Binary64.default_params
    5e-324 10 R_ "Again" = Ok 0%float.
Proof.
  intros Hpow. unfold Binary64.update_stability. simpl.
  assert (getitem Binary64.default_params "w12" = Ok 1.0%float) as -> by reflexivity.
  assert (getitem Binary64.default_params "w11" = Ok 1.0%float) as -> by reflexivity.
  unfold Binary64.pow. simpl. rewrite Hpow. reflexivity.
Qed.

(** From the stability 7098 on [predict_review_outcome] raises
    OverflowError: the argument of [math.exp] is 709.8 or more, where the
    library's [exp] is infinite ([math.log(math.e)] is 1.0). *)
Lemma predict_review_outcome_overflow
    (libm_log libm_exp : float -> float) (libm_pow : float -> float -> float)
    (D : float) :
  libm_log Binary64.math_e = 1%float -> libm_exp 709.8%float = infinity ->
  Binary64.predict_review_outcome libm_log libm_exp libm_pow 7098 D 0.5
    = Raise OverflowError.
Proof.
  intros Hlog Hexp.
  unfold Binary64.predict_review_outcome, Binary64.math_log, Binary64.math_exp.
  simpl. rewrite Hlog. simpl. rewrite Hexp. reflexivity.
Qed.

(** One day and two days after a review, a stability of 1e-16 has the same
    retrievability 1.0: the inverse of [t / S] is absorbed by the sum
    ([1e16 ** -1] is 1e-16 and [2e16 ** -1] is 5e-17). *)
Lemma calculate_retrievability_absorbed (libm_pow : float -> float -> float) :
  libm_pow 1e16%float (-1)%float = 1e-16%float ->
  libm_pow 2e16%float (-1)%float = 5e-17%float ->
  Binary64.calculate_retrievability libm_pow 1 1e-16 = Ok 1%float /\
  Binary64.calculate_retrievability libm_pow 2 1e-16 = Ok 1%float.
Proof.
  intros H1 H2.
  unfold Binary64.calculate_retrievability, Binary64.pow_float, Binary64.pow.
  simpl. rewrite H1, H2. split; reflexivity.
Qed.

(** ** Stability *)

(** Where binary64 absorbs nothing, for a stability and a retrievability
    of at least [float_epsilon], a difficulty in [1, 10] and a retrievability
    of at most 1, [stability_increase] returns a factor [f >= 1] for every
    grade, and for every grade other than Again [update_stability] returns
    [S * f], which is at least [S]. *)
Lemma update_stability_nondecreasing_above_epsilon
    (params : gmap string R) (S D R_ : R) (grade : string) :
  is_Some (params !! "w1") ->
  float_epsilon <= S -> 1 <= D <= 10 -> float_epsilon <= R_ <= 1 ->
  exists f : R,
    FSRS.stability_increase params S D R_ grade = Ok f /\
    1 <= f /\
    (grade <> "Again" ->
     FSRS.update_stability params S D R_ grade = Ok (S * f) /\ S <= S * f).
Proof.
  intros [w1 Hw1] HS HD HR. unfold float_epsilon in *.
  pose proof (stability_increase_value params w1 S D R_ grade Hw1) as Hinc.
  rewrite Hinc by lra.
  eexists. split; [reflexivity|].
  assert (forall x, 1 <= Rmax 1 x) as Hmax by (intros x; apply Rmax_l).
  split; [apply Hmax|]. intros Hg. split.
  - rewrite update_stability_not_Again, Hinc by (assumption || lra). reflexivity.
  - specialize (Hmax ((11 - D) * Rmax 1 (/ (ln (S + 1) / ln 2))
                * Rmax 1 (/ (ln (R_ + 1) / ln 2)) * w1
                * (if decide (grade = "Again") then 0
                   else if decide (grade ∈ ["Good"; "Easy"]) then 1 else 0.5)
                * (if decide (grade ∈ ["Hard"; "Good"]) then 1 else 3))).
    nra.
Qed.

(** The factor is at least 1 for the grade Again too, where
    [update_stability] does not use it. *)
Lemma stability_increase_ge_1
    (params : gmap string R) (S D R_ f : R) (grade : string) :
  FSRS.stability_increase params S D R_ grade = Ok f -> 1 <= f.
Proof.
  rewrite stability_increase_unfold.
  destruct (_ ← math_log (S + 1); _) as [pS|]; [|discriminate].
  destruct (_ ← math_log (R_ + 1); _) as [pR|]; [|discriminate].
  destruct (getitem params "w1") as [w1|]; [|discriminate].
  simpl. intros [= <-]. apply max_ge_l.
Qed.

(** C2. For [S > 0] and a difficulty in [1, 10], whatever the
    retrievability, a lapse gives [min(S, S * D^(-w12) * w11)], which is at
    most [S]. *)
Theorem update_stability_lapse
    (params : gmap string R) (w11 w12 S D R_ : R) :
  params !! "w12" = Some w12 -> params !! "w11" = Some w11 ->
  0 < S -> 1 <= D <= 10 ->
  FSRS.update_stability params S D R_ "Again"
    = Ok (Rmin S (S * Rpower D (- w12) * w11)) /\
  Rmin S (S * Rpower D (- w12) * w11) <= S.
Proof.
  intros H12 H11 HS HD. split; [|apply Rmin_l].
  apply update_stability_Again_value; [assumption|assumption|lra].
Qed.

Lemma update_stability_lapse_witness :
  FSRS.default_params !! "w12" = Some 1.0 /\
  FSRS.default_params !! "w11" = Some 1.0 /\
  0 < 2 /\ 1 <= 5 <= 10 /\
  FSRS.update_stability FSRS.default_params 2 5 1 "Again"
    = Ok (Rmin 2 (2 * Rpower 5 (- (1.0)) * 1.0)) /\
  Rmin 2 (2 * Rpower 5 (- (1.0)) * 1.0) <= 2.
Proof.
  assert (FSRS.default_params !! "w12" = Some 1.0) as H1 by reflexivity.
  assert (FSRS.default_params !! "w11" = Some 1.0) as H2 by reflexivity.
  assert (0 < 2) as H3 by lra.
  assert (1 <= 5 <= 10) as H4 by lra.
  repeat (split; [assumption|]).
  exact (update_stability_lapse FSRS.default_params 1.0 1.0 2 5 1 H1 H2 H3 H4).
Defined.

(** Without a positive [w11] a lapse gives a stability that is not positive. *)
Lemma update_stability_lapse_w11_zero :
  FSRS.update_stability (<["w11" := 0]> FSRS.default_params) 1 5 1 "Again" = Ok 0.
Proof.
  rewrite (update_stability_Again_value _ 0 1.0) by (reflexivity || lra).
  f_equal. rewrite Rmult_0_r. unfold Rmin. destruct (Rle_dec 1 0); lra.
Qed.

(** C6, as the code has it. For a parameter set with [w11] of at least
    [float_epsilon] and [w12] between -100 and 100 (both are 1.0 by
    default), a stability of at least [float_epsilon], a difficulty in
    [1, 10] and a grade of the enumerated set, [update_stability] never
    returns a value that is not positive.  It returns one, positive, for the
    grade Again whatever the retrievability, and for the other grades when
    the retrievability is at least [float_epsilon], or above -1 and at most
    [- float_epsilon]; for the other grades it raises ZeroDivisionError at
    retrievability 0 and ValueError at retrievability -1 or below.  Smaller
    stabilities and retrievabilities, which binary64 absorbs or lets
    underflow, are left out. *)
Theorem update_stability_positive
    (params : gmap string R) (w1 w11 w12 S D R_ : R) (grade : string) :
  params !! "w1" = Some w1 -> params !! "w11" = Some w11 ->
  params !! "w12" = Some w12 ->
  float_epsilon <= w11 -> -100 <= w12 <= 100 ->
  float_epsilon <= S -> 1 <= D <= 10 ->
  grade ∈ ["Again"; "Hard"; "Good"; "Easy"] ->
  (forall S', FSRS.update_stability params S D R_ grade = Ok S' -> 0 < S') /\
  (grade = "Again" \/ float_epsilon <= R_ \/ (-1 < R_ /\ R_ <= - float_epsilon) ->
   exists S', FSRS.update_stability params S D R_ grade = Ok S' /\ 0 < S') /\
  (grade <> "Again" -> R_ = 0 ->
   FSRS.update_stability params S D R_ grade = Raise ZeroDivisionError) /\
  (grade <> "Again" -> R_ <= -1 ->
   FSRS.update_stability params S D R_ grade = Raise ValueError).
Proof.
  intros Hw1 Hw11 Hw12 H11 _ HS HD _. unfold float_epsilon in *.
  assert (0 < Rmin S (S * Rpower D (- w12) * w11)) as Hlapse.
  { apply Rmin_glb_lt; [lra|].
    apply Rmult_lt_0_compat; [|lra].
    apply Rmult_lt_0_compat; [lra|]. unfold Rpower. apply exp_pos. }
  assert (grade <> "Again" -> -1 < R_ -> R_ <> 0 ->
          exists S', FSRS.update_stability params S D R_ grade = Ok S' /\ 0 < S') as Hok.
  { intros Hg H1 H0. rewrite update_stability_not_Again by assumption.
    rewrite (stability_increase_value params w1) by (assumption || lra).
    eexists. split; [reflexivity|].
    apply Rmult_lt_0_compat; [lra|].
    eapply Rlt_le_trans; [|apply Rmax_l]. lra. }
  assert (grade <> "Again" -> R_ = 0 ->
          FSRS.update_stability params S D R_ grade = Raise ZeroDivisionError) as Hzero.
  { intros Hg ->. rewrite update_stability_not_Again by assumption.
    rewrite stability_increase_unfold, (log2_inverse_Ok S), bind_Ok by lra.
    rewrite log2_inverse_zero. reflexivity. }
  assert (grade <> "Again" -> R_ <= -1 ->
          FSRS.update_stability params S D R_ grade = Raise ValueError) as Hval.
  { intros Hg HR. rewrite update_stability_not_Again by assumption.
    rewrite stability_increase_unfold, (log2_inverse_Ok S), bind_Ok by lra.
    rewrite log2_inverse_ValueError by assumption. reflexivity. }
  assert (grade = "Again" ->
          FSRS.update_stability params S D R_ grade
            = Ok (Rmin S (S * Rpower D (- w12) * w11))) as Hagain.
  { intros ->. apply update_stability_Again_value; [assumption|assumption|lra]. }
  repeat split; try assumption.
  - intros S' HS'. destruct (decide (grade = "Again")) as [Hg|Hg].
    + rewrite (Hagain Hg) in HS'. injection HS' as <-. assumption.
    + destruct (Rle_dec R_ (-1)) as [HR|HR].
      { rewrite (Hval Hg HR) in HS'. discriminate. }
      destruct (Req_dec_T R_ 0) as [HR0|HR0].
      { rewrite (Hzero Hg HR0) in HS'. discriminate. }
      destruct (Hok Hg) as (S'' & Heq & Hpos); [lra|assumption|].
      rewrite Heq in HS'. injection HS' as <-. assumption.
  - intros HR.
    destruct (decide (grade = "Again")) as [Hg|Hg].
    + eexists. split; [apply (Hagain Hg)|assumption].
    + apply Hok; [assumption| |]; destruct HR as [HR|[HR|HR]]; try contradiction; lra.
Qed.

Lemma update_stability_positive_witness :
  exists S', FSRS.update_stability FSRS.default_params 1 5 1 "Good" = Ok S' /\ 0 < S'.
Proof.
  assert (FSRS.default_params !! "w1" = Some 1.0) as H1 by reflexivity.
  assert (FSRS.default_params !! "w11" = Some 1.0) as H2 by reflexivity.
  assert (FSRS.default_params !! "w12" = Some 1.0) as H3 by reflexivity.
  assert (float_epsilon <= 1.0) as H4 by (unfold float_epsilon; lra).
  assert (-100 <= 1.0 <= 100) as H4' by lra.
  assert (float_epsilon <= 1) as H5 by (unfold float_epsilon; lra).
  assert (1 <= 5 <= 10) as H6 by lra.
  assert ("Good" ∈ ["Again"; "Hard"; "Good"; "Easy"]) as H7
    by (repeat constructor).
  apply (update_stability_positive FSRS.default_params 1.0 1.0 1.0 1 5 1 "Good"
           H1 H2 H3 H4 H4' H5 H6 H7).
  right. left. exact H5.
Defined.

(** C6 as stated fails: at retrievability 0 the grade Good gives no
    stability at all, and with [w11 = 0] a lapse gives the stability 0. *)
Lemma update_stability_positive_counterexample :
  ~ (exists S', FSRS.update_stability FSRS.default_params 1 5 0 "Good" = Ok S' /\ 0 < S') /\
  ~ (exists S', FSRS.update_stability (<["w11" := 0]> FSRS.default_params) 1 5 1 "Again"
                = Ok S' /\ 0 < S').
Proof.
  split.
  - intros (S' & HS' & _).
    rewrite update_stability_not_Again in HS' by discriminate.
    rewrite stability_increase_unfold, (log2_inverse_Ok 1), bind_Ok in HS' by lra.
    rewrite log2_inverse_zero in HS'. discriminate.
  - intros (S' & HS' & Hpos).
    rewrite update_stability_lapse_w11_zero in HS'. injection HS' as <-. lra.
Qed.

(** ** Retrievability *)

(** For positive arguments the code computes [t / (t + S)], which is
    [1 - (1 + t/S)^-1] and grows with the elapsed time. *)
Lemma calculate_retrievability_complement (t S : R) :
  0 < t -> 0 < S ->
  FSRS.calculate_retrievability t S = Ok (1 - Spec.retrievability t S).
Proof.
  intros Ht HS. rewrite calculate_retrievability_value by lra.
  f_equal. unfold Spec.retrievability. field. lra.
Qed.

Lemma calculate_retrievability_increasing (t1 t2 S r1 r2 : R) :
  0 < t1 -> t1 < t2 -> 0 < S ->
  FSRS.calculate_retrievability t1 S = Ok r1 ->
  FSRS.calculate_retrievability t2 S = Ok r2 ->
  r1 < r2.
Proof.
  intros H1 H12 HS. rewrite !calculate_retrievability_value by lra.
  intros [= <-] [= <-].
  apply (Rmult_lt_reg_r ((t1 + S) * (t2 + S))); [nra|].
  replace (t1 / (t1 + S) * ((t1 + S) * (t2 + S))) with (t1 * (t2 + S)) by (field; lra).
  replace (t2 / (t2 + S) * ((t1 + S) * (t2 + S))) with (t2 * (t1 + S)) by (field; lra).
  nra.
Qed.

(** C3. One day after a review of an item of stability 2 the code gives the
    retrievability 1/3, where [(1 + t/S)^-1] is 2/3. *)
Theorem calculate_retrievability_1_2 :
  FSRS.calculate_retrievability 1 2 = Ok (1 / 3) /\
  Spec.retrievability 1 2 = 2 / 3 /\
  FSRS.calculate_retrievability 1 2 <> Ok (Spec.retrievability 1 2).
Proof.
  assert (FSRS.calculate_retrievability 1 2 = Ok (1 / 3)) as Hcode.
  { rewrite calculate_retrievability_value by lra. apply f_equal. lra. }
  assert (Spec.retrievability 1 2 = 2 / 3) as Hspec.
  { unfold Spec.retrievability. field. }
  repeat split; [assumption|assumption|].
  rewrite Hcode, Hspec. intros [= H]. lra.
Qed.

(** ** Difficulty *)

(** C5. For every difficulty and each of the four grades,
    [update_difficulty] adds the change of the grade, reverts 90%/10%
    toward [w4] and then clamps to [1, 10]; from 5.0 with grade Hard and
    [w4 = 1.0] it gives 4.78. *)
Theorem update_difficulty_formula
    (params : gmap string R) (w4 D R_ : R) (grade : string) :
  params !! "w4" = Some w4 ->
  grade ∈ ["Again"; "Hard"; "Good"; "Easy"] ->
  FSRS.update_difficulty params D grade R_
    = Ok (Rmax 1 (Rmin 10
            (0.9 * (D + (if decide (grade = "Again") then 1.0
                         else if decide (grade = "Hard") then 0.2
                         else if decide (grade = "Good") then 0
                         else -0.2))
             + 0.1 * w4))) /\
  FSRS.update_difficulty FSRS.default_params 5.0 "Hard" R_ = Ok 4.78.
Proof.
  intros H4 Hg. split.
  - rewrite (update_difficulty_value params w4) by assumption.
    rewrite difficulty_change_get.
    repeat (case_decide; [do 3 f_equal; lra|]).
    exfalso. repeat (apply elem_of_cons in Hg as [->|Hg]; [congruence|]).
    inversion Hg.
  - rewrite (update_difficulty_value _ 1.0) by reflexivity.
    rewrite difficulty_change_get. simpl. f_equal.
    minmax_cases.
Qed.

Lemma update_difficulty_formula_witness :
  FSRS.update_difficulty FSRS.default_params 5.0 "Hard" 1
    = Ok (Rmax 1 (Rmin 10
            (0.9 * (5.0 + (if decide ("Hard" = "Again") then 1.0
                           else if decide ("Hard" = "Hard") then 0.2
                           else if decide ("Hard" = "Good") then 0
                           else -0.2))
             + 0.1 * 1.0))) /\
  FSRS.update_difficulty FSRS.default_params 5.0 "Hard" 1 = Ok 4.78.
Proof.
  assert (FSRS.default_params !! "w4" = Some 1.0) as H1 by reflexivity.
  assert ("Hard" ∈ ["Again"; "Hard"; "Good"; "Easy"]) as H2 by (repeat constructor).
  exact (update_difficulty_formula FSRS.default_params 1.0 5.0 1 "Hard" H1 H2).
Defined.

(** On binary64 floats the same steps give the float written 4.78. *)
Lemma update_difficulty_binary64_Hard :
  PrimFloat.eqb (FSRS.update_difficulty_binary64 5.0 0.2) 4.78 = true.
Proof. reflexivity. Qed.

(** Clamping before the reversion would give another result: from 10 with
    grade Again the code gives 10, the other order 9.1. *)
Lemma update_difficulty_order :
  FSRS.update_difficulty FSRS.default_params 10 "Again" 1 = Ok 10 /\
  0.9 * Rmax 1 (Rmin 10 (10 + 1.0)) + 0.1 * 1.0 = 9.1.
Proof.
  split.
  - rewrite (update_difficulty_value _ 1.0) by reflexivity.
    rewrite difficulty_change_get. simpl. f_equal.
    minmax_cases.
  - minmax_cases.
Qed.

(** C10. The result of [update_difficulty] does not depend on the
    retrievability it is given. *)
Theorem update_difficulty_ignores_R
    (params : gmap string R) (D : R) (grade : string) (R1 R2 : R) :
  FSRS.update_difficulty params D grade R1 = FSRS.update_difficulty params D grade R2.
Proof. reflexivity. Qed.

(** ** Inputs outside the documented domain *)

(** C8, as the code has it. A grade outside the enumerated set makes no
    operation fail on its account, there being no error for it:
    [update_difficulty] gives what it gives for Good, a change of 0;
    [stability_increase] and [update_stability] raise exactly the exceptions
    they raise for Good, and whenever [stability_increase] returns a factor
    it is at least 1 and [update_stability] returns the stability times that
    factor. *)
Theorem unknown_grade_defaults
    (params : gmap string R) (S D R_ : R) (grade : string) :
  grade ∉ ["Again"; "Hard"; "Good"; "Easy"] ->
  FSRS.update_difficulty params D grade R_
    = FSRS.update_difficulty params D "Good" R_ /\
  (forall e : exn,
     FSRS.stability_increase params S D R_ grade = Raise e <->
     FSRS.stability_increase params S D R_ "Good" = Raise e) /\
  (forall e : exn,
     FSRS.update_stability params S D R_ grade = Raise e <->
     FSRS.update_stability params S D R_ "Good" = Raise e) /\
  (forall f : R,
     FSRS.stability_increase params S D R_ grade = Ok f ->
     1 <= f /\ FSRS.update_stability params S D R_ grade = Ok (S * f)).
Proof.
  intros Hg.
  assert (grade <> "Again") as HA.
  { intros ->. apply Hg. repeat constructor. }
  assert (forall e : exn,
            FSRS.stability_increase params S D R_ grade = Raise e <->
            FSRS.stability_increase params S D R_ "Good" = Raise e) as Hinc.
  { intros e. rewrite !stability_increase_unfold.
    destruct (_ ← math_log (S + 1); _) as [pS|]; [|reflexivity].
    destruct (_ ← math_log (R_ + 1); _) as [pR|]; [|reflexivity].
    destruct (getitem params "w1") as [w1|]; [|reflexivity].
    simpl. split; discriminate. }
  split; [|split; [exact Hinc|split]].
  - unfold FSRS.update_difficulty.
    assert (get FSRS.difficulty_change grade 0.0 = get FSRS.difficulty_change "Good" 0.0)
      as ->; [|reflexivity].
    rewrite (difficulty_change_get grade).
    repeat (case_decide; [subst; exfalso; apply Hg; repeat constructor|]).
    reflexivity.
  - intros e. rewrite !update_stability_not_Again by (assumption || discriminate).
    specialize (Hinc e).
    destruct (FSRS.stability_increase params S D R_ grade) as [f|e1],
             (FSRS.stability_increase params S D R_ "Good") as [g|e2];
      simpl; split; intros H; try discriminate H;
      apply Hinc in H; first [discriminate H | exact H].
  - intros f Hf. split; [exact (stability_increase_ge_1 _ _ _ _ _ _ Hf)|].
    rewrite update_stability_not_Again, Hf by assumption. reflexivity.
Qed.

Lemma unknown_grade_defaults_witness :
  FSRS.update_difficulty FSRS.default_params 5 "Medium" 1
    = FSRS.update_difficulty FSRS.default_params 5 "Good" 1 /\
  (forall e : exn,
     FSRS.update_stability FSRS.default_params 1 5 1 "Medium" = Raise e <->
     FSRS.update_stability FSRS.default_params 1 5 1 "Good" = Raise e).
Proof.
  assert ("Medium" ∉ ["Again"; "Hard"; "Good"; "Easy"]) as H1.
  { intros Hin. repeat (apply elem_of_cons in Hin as [Heq|Hin]; [discriminate|]).
    inversion Hin. }
  destruct (unknown_grade_defaults FSRS.default_params 1 5 1 "Medium" H1)
    as (HD & _ & HS & _).
  split; [exact HD|exact HS].
Defined.

(** The binary logarithm of 2 is 1, so that the two saturation terms are 1
    at stability 1 and retrievability 1. *)
Lemma log2_inverse_at_1 : Rmax 1 (/ (ln (1 + 1) / ln 2)) = 1.
Proof.
  pose proof ln_2_pos. replace (1 + 1) with 2 by lra.
  replace (/ (ln 2 / ln 2)) with 1 by (field; lra).
  unfold Rmax. destruct (Rle_dec 1 1); reflexivity.
Qed.

(** C8 as stated fails: with the grade "Medium" both updates return a
    number. *)
Lemma unknown_grade_counterexample :
  FSRS.update_difficulty FSRS.default_params 5 "Medium" 1 = Ok 4.6 /\
  FSRS.update_stability FSRS.default_params 1 5 1 "Medium" = Ok 9.
Proof.
  split.
  - rewrite (update_difficulty_value _ 1.0) by reflexivity.
    rewrite difficulty_change_get. simpl. f_equal.
    minmax_cases.
  - rewrite update_stability_not_Again by discriminate.
    rewrite (stability_increase_value _ 1.0) by (reflexivity || lra).
    simpl. rewrite log2_inverse_at_1. f_equal.
    minmax_cases.
Qed.

(** C9, as the code has it. No function of the memory model checks its
    stability or difficulty argument, and none has an error of its own for
    them.  At stability 0 [calculate_retrievability] fails, with Python's
    ZeroDivisionError; at a negative stability it need not fail.
    [update_difficulty] returns a value of [1, 10] for every difficulty, in
    [1, 10] or not.  With the default parameters the lapse branch of
    [update_stability] returns [min(S, S / D)] as well for a stability that
    is not positive and for a difficulty above 10. *)
Theorem no_domain_check :
  (forall t : R, FSRS.calculate_retrievability t 0 = Raise ZeroDivisionError) /\
  (exists t S r : R, S < 0 /\ FSRS.calculate_retrievability t S = Ok r) /\
  (forall (params : gmap string R) (w4 D R_ : R) (grade : string),
     params !! "w4" = Some w4 ->
     exists D', FSRS.update_difficulty params D grade R_ = Ok D' /\ 1 <= D' <= 10) /\
  (forall S D R_ : R,
     1 <= D ->
     FSRS.update_stability FSRS.default_params S D R_ "Again" = Ok (Rmin S (S / D))).
Proof.
  split; [|split; [|split]].
  - apply calculate_retrievability_S_zero.
  - exists 1, (-2), (1 / (1 + -2)). split; [lra|].
    apply calculate_retrievability_value; lra.
  - intros params w4 D R_ grade H4.
    rewrite (update_difficulty_value params w4) by assumption.
    eexists. split; [reflexivity|apply clamp_bounds].
  - intros S D R_ HD.
    rewrite (update_stability_Again_value _ 1.0 1.0) by (reflexivity || lra).
    do 2 f_equal. replace (- (1.0)) with (-1) by lra.
    rewrite Rpower_neg1 by lra. unfold Rdiv. lra.
Qed.

Lemma no_domain_check_witness :
  FSRS.calculate_retrievability 3 0 = Raise ZeroDivisionError /\
  (exists D', FSRS.update_difficulty FSRS.default_params 15 "Good" 1 = Ok D'
              /\ 1 <= D' <= 10) /\
  FSRS.update_stability FSRS.default_params (-3) 20 1 "Again"
    = Ok (Rmin (-3) (-3 / 20)).
Proof.
  destruct no_domain_check as (H0 & _ & HD & HS).
  split; [apply H0|]. split.
  - apply (HD FSRS.default_params 1.0). reflexivity.
  - apply HS. lra.
Defined.

(** C9 as stated fails: at stability -2 the retrievability one day after a
    review is the number -1; from the difficulty 15 the grade Good gives
    the difficulty 10; and a lapse at stability -3 and difficulty 20 gives
    the stability -3. *)
Lemma no_domain_check_counterexample :
  FSRS.calculate_retrievability 1 (-2) = Ok (-1) /\
  FSRS.update_difficulty FSRS.default_params 15 "Good" 1 = Ok 10 /\
  FSRS.update_stability FSRS.default_params (-3) 20 1 "Again" = Ok (-3).
Proof.
  split; [|split].
  - rewrite calculate_retrievability_value by lra. apply f_equal. lra.
  - rewrite (update_difficulty_value _ 1.0) by reflexivity.
    rewrite difficulty_change_get. simpl. f_equal.
    minmax_cases.
  - rewrite (update_stability_Again_value _ 1.0 1.0) by (reflexivity || lra).
    f_equal. replace (- (1.0)) with (-1) by lra. rewrite Rpower_neg1 by lra.
    minmax_cases.
Qed.

(** ** The scheduler *)

Section Scheduler.

Import Selection.

Lemma elem_of_enumerate {A : Type} (l : list A) (i : nat) (x : A) :
  (i, x) ∈ enumerate l <-> l !! i = Some x.
Proof.
  unfold enumerate. rewrite elem_of_lookup_imap. split.
  - intros (j & y & [= -> ->] & H). exact H.
  - intros H. exists i, x. split; [reflexivity|exact H].
Qed.

Lemma imap_shift_sorted {A : Type} (l : list A) (k : nat) :
  StronglySorted by_position (imap (fun i x => ((k + i)%nat, x)) l).
Proof.
  revert k. induction l as [|x l IH]; intros k; [constructor|].
  rewrite imap_cons. constructor.
  - rewrite (imap_ext _ (fun i y => ((S k + i)%nat, y))); [apply IH|].
    intros i y _. simpl. f_equal. lia.
  - apply Forall_forall. intros b Hb.
    apply elem_of_lookup_imap in Hb as (i & y & -> & _).
    unfold by_position. simpl. lia.
Qed.

Lemma enumerate_sorted {A : Type} (l : list A) :
  StronglySorted by_position (enumerate l).
Proof. apply (imap_shift_sorted l 0). Qed.

Lemma filter_sorted {A : Type} (Rel : A -> A -> Prop) (P : A -> Prop)
    `{forall x, Decision (P x)} (l : list A) :
  StronglySorted Rel l -> StronglySorted Rel (filter P l).
Proof.
  induction 1 as [|a l Hs IH Ha]; [constructor|].
  rewrite filter_cons. destruct (decide (P a)); [|exact IH].
  constructor; [exact IH|].
  apply Forall_forall. intros b Hb. apply list_elem_of_filter in Hb as [_ Hb].
  rewrite Forall_forall in Ha. apply Ha, Hb.
Qed.

(** [min(..., key=lambda q: q.next_review)] over objects listed in the
    order of their positions returns a listed object that is preferred to
    every listed object. *)
Lemma min_key_from_preferred (l : list (nat * PhysicsQuestion))
    (best : nat * PhysicsQuestion) :
  StronglySorted by_position (best :: l) ->
  let r := min_key_from (fun iq => next_review iq.2) best l in
  r ∈ best :: l /\ forall iq, iq ∈ best :: l -> preferred r iq.
Proof.
  revert best. induction l as [|x l IH]; intros best Hs; simpl.
  - split; [constructor|]. intros iq Hiq.
    apply list_elem_of_singleton in Hiq as ->. right. split; reflexivity.
  - apply StronglySorted_inv in Hs as [Hs Hbest].
    apply StronglySorted_inv in Hs as [Hs Hx].
    apply Forall_cons in Hbest as [Hbx Hbest].
    destruct (Z.ltb_spec (next_review x.2) (next_review best.2)) as [Hlt|Hge].
    + destruct (IH x) as [Hin Hpref]; [constructor; assumption|].
      split.
      * apply elem_of_cons. right. exact Hin.
      * intros iq Hiq. apply elem_of_cons in Hiq as [->|Hiq]; [|apply Hpref, Hiq].
        specialize (Hpref x (list_elem_of_here _ _)).
        left. destruct Hpref as [H1|[H1 _]]; lia.
    + destruct (IH best) as [Hin Hpref]; [constructor; assumption|].
      split.
      * apply elem_of_cons in Hin as [->|Hin]; [constructor|].
        do 2 apply list_elem_of_further. exact Hin.
      * intros iq Hiq.
        apply elem_of_cons in Hiq as [->|Hiq];
          [apply Hpref; constructor|].
        apply elem_of_cons in Hiq as [->|Hiq];
          [|apply Hpref, list_elem_of_further, Hiq].
        specialize (Hpref best (list_elem_of_here _ _)).
        unfold by_position in Hbx.
        destruct Hpref as [H1|[H1 H2]]; [left; lia|].
        destruct (Z.eq_dec (next_review x.2) (next_review best.2)) as [Heq|Hne].
        -- right. split; lia.
        -- left. lia.
Qed.

Variable self : PhysicsFlashcardStudyApp.
Variable current_time : Z.

Lemma reviewable_questions_sorted :
  StronglySorted by_position (reviewable_questions self current_time).
Proof.
  unfold reviewable_questions.
  pose proof (filter_sorted by_position
    (fun iq : nat * PhysicsQuestion => (next_review iq.2 <= current_time)%Z)
    _ (enumerate_sorted (questions self))) as Hf.
  destruct (filter _ _); [apply enumerate_sorted|exact Hf].
Qed.

(** The list of lines 208 to 210 holds exactly the candidates. *)
Lemma reviewable_questions_candidate (iq : nat * PhysicsQuestion) :
  iq ∈ reviewable_questions self current_time <-> candidate self current_time iq.
Proof.
  unfold reviewable_questions, candidate, some_due. destruct iq as [i q]. simpl.
  destruct (filter _ _) as [|d due] eqn:Hdue.
  - rewrite elem_of_enumerate. split; [|intros [H _]; exact H].
    intros Hq. split; [exact Hq|]. intros (q' & Hq' & Ht).
    apply list_elem_of_lookup in Hq' as [j Hj].
    exfalso. eapply (filter_nil_not_elem_of _ _ (j, q') Hdue); [exact Ht|].
    apply elem_of_enumerate, Hj.
  - rewrite <- Hdue. rewrite list_elem_of_filter, elem_of_enumerate. simpl. split.
    + intros [Ht Hq]. split; [exact Hq|]. intros _. exact Ht.
    + intros [Hq Ht]. split; [|exact Hq]. apply Ht.
      assert (d ∈ filter (fun iq : nat * PhysicsQuestion =>
                            (next_review iq.2 <= current_time)%Z)
                         (enumerate (questions self))) as Hd
        by (rewrite Hdue; constructor).
      apply list_elem_of_filter in Hd as [Hdt Hd]. destruct d as [j q'].
      apply elem_of_enumerate in Hd. exists q'. split; [|exact Hdt].
      apply list_elem_of_lookup. exists j. exact Hd.
Qed.

(** The selection is reached only when some question is not yet stable,
    hence with a list that is not empty; on the empty list [min] would
    raise. *)
Lemma all_stable_false_nonempty : all_stable self = false -> questions self <> [].
Proof. unfold all_stable. intros H Hnil. rewrite Hnil in H. discriminate. Qed.

Lemma question_to_review_empty :
  questions self = [] -> question_to_review self current_time = Raise ValueError.
Proof.
  intros Hnil. unfold question_to_review, reviewable_questions. rewrite Hnil. reflexivity.
Qed.

End Scheduler.

(** C7, as the code has it. The selection is made among the questions whose
    [next_review] is at most the current time, or among all the questions,
    stable ones included, when none is due; it returns the candidate with
    the earliest [next_review], the first of them in [self.questions] when
    several have it; and it depends on nothing but the list of questions
    and the current time. *)
Theorem question_to_review_earliest_first
    (self : PhysicsFlashcardStudyApp) (current_time : Z) :
  questions self <> [] ->
  exists iq : nat * PhysicsQuestion,
    question_to_review self current_time = Ok iq /\
    Selection.candidate self current_time iq /\
    (forall iq', Selection.candidate self current_time iq' -> Selection.preferred iq iq') /\
    (forall self' : PhysicsFlashcardStudyApp,
       questions self' = questions self ->
       question_to_review self' current_time = Ok iq).
Proof.
  intros Hne.
  assert (forall s : PhysicsFlashcardStudyApp, questions s = questions self ->
          exists iq, question_to_review s current_time = Ok iq /\
            iq ∈ reviewable_questions self current_time /\
            forall iq', iq' ∈ reviewable_questions self current_time ->
                        Selection.preferred iq iq') as Hsel.
  { intros s Hs. unfold question_to_review.
    assert (reviewable_questions s current_time = reviewable_questions self current_time)
      as -> by (unfold reviewable_questions; rewrite Hs; reflexivity).
    pose proof (reviewable_questions_sorted self current_time) as Hsorted.
    destruct (reviewable_questions self current_time) as [|b l] eqn:Hrev.
    - exfalso. unfold reviewable_questions in Hrev.
      destruct (filter _ _); [|discriminate].
      destruct (questions self); [contradiction|discriminate].
    - simpl. eexists. split; [reflexivity|].
      apply (min_key_from_preferred l b Hsorted). }
  destruct (Hsel self eq_refl) as (iq & Heq & Hin & Hpref).
  exists iq. split; [exact Heq|]. split; [|split].
  - apply reviewable_questions_candidate, Hin.
  - intros iq' Hc. apply Hpref, reviewable_questions_candidate, Hc.
  - intros self' Hs. destruct (Hsel self' Hs) as (iq' & Heq' & Hin' & Hpref').
    rewrite Heq'. f_equal.
    specialize (Hpref iq' Hin'). specialize (Hpref' iq Hin).
    apply reviewable_questions_candidate in Hin as [Hq _].
    apply reviewable_questions_candidate in Hin' as [Hq' _].
    destruct iq as [i q], iq' as [i' q']. simpl in *.
    unfold Selection.preferred in *. simpl in *.
    assert (i = i') as -> by lia. congruence.
Qed.

Lemma question_to_review_earliest_first_witness :
  exists iq : nat * PhysicsQuestion,
    question_to_review
      (Sample.session [Sample.q_kinematics; Sample.q_dynamics]) 0 = Ok iq /\
    Selection.candidate
      (Sample.session [Sample.q_kinematics; Sample.q_dynamics]) 0 iq.
Proof.
  assert (questions (Sample.session [Sample.q_kinematics; Sample.q_dynamics])
          <> []) as H by discriminate.
  destruct (question_to_review_earliest_first _ 0 H) as (iq & Heq & Hc & _).
  exists iq. split; assumption.
Defined.

Lemma min_stability_days_session (qs : list PhysicsQuestion) :
  min_stability_days (Sample.session qs) = 0.1.
Proof.
  unfold min_stability_days, total_seconds, max. simpl.
  destruct (Rlt_dec _ _); lra.
Qed.

(** C7 as stated fails. With no question due, the session that has not all
    its questions stable selects the stable one, which is no candidate of
    the specified selection; and of two questions due at the same time the
    one listed first is selected, whichever identifier it has. *)
Lemma select_next_counterexample :
  (all_stable (Sample.session [Sample.q_stable; Sample.q_new]) = false /\
   question_to_review (Sample.session [Sample.q_stable; Sample.q_new]) 0
     = Ok (0%nat, Sample.q_stable) /\
   ~ Spec.select_next
       (min_stability_days (Sample.session [Sample.q_stable; Sample.q_new]))
       [Sample.q_stable; Sample.q_new] 0 Sample.q_stable) /\
  (question_to_review
     (Sample.session [Sample.q_kinematics; Sample.q_dynamics]) 0
     = Ok (0%nat, Sample.q_kinematics) /\
   question_to_review
     (Sample.session [Sample.q_dynamics; Sample.q_kinematics]) 0
     = Ok (0%nat, Sample.q_dynamics)).
Proof.
  split; [split; [|split]|split]; try reflexivity.
  - unfold all_stable. rewrite min_stability_days_session. simpl.
    repeat destruct (Rge_dec _ _); try reflexivity; lra.
  - rewrite min_stability_days_session. intros [Hin _].
    unfold Spec.candidates in Hin. rewrite !filter_cons, !filter_nil in Hin.
    simpl in Hin.
    destruct (decide (5 <= 0)%Z); [lia|].
    destruct (decide (10 <= 0)%Z); [lia|].
    destruct (decide (100 < 0.1)); [lra|].
    destruct (decide (0.0001 < 0.1)); [|lra].
    apply list_elem_of_singleton in Hin. discriminate.
Qed.

(** ** Grading a review *)

Lemma timedelta_days_whole (d : Z) :
  (-999999999 <= d <= 999999999)%Z ->
  timedelta_days (IZR d) = Ok (d * us_per_day)%Z.
Proof.
  intros Hd. unfold timedelta_days.
  rewrite <- mult_IZR. unfold round_half_even.
  rewrite Int_part_IZR, frac_part_IZR.
  destruct (Rlt_dec 0 (1 / 2)); [|lra].
  rewrite Z.div_mul by discriminate.
  destruct (Z.leb_spec (-999999999) d); [|lia].
  destruct (Z.leb_spec d 999999999); [|lia]. reflexivity.
Qed.

(** Whenever the grading of lines 243 to 250 succeeds, the retrievability
    it handed to the memory model is the number of questions of the session,
    and the object keeps the [last_reviewed] it had. *)
Lemma review_inversion
    (self self' : PhysicsFlashcardStudyApp) (iq : nat * PhysicsQuestion)
    (grade : string) (now : Z) :
  review self iq grade now = Ok self' ->
  exists (S D : R) (td : Z),
    FSRS.update_stability (fsrs self) (stability iq.2) (difficulty iq.2)
      (INR (length (questions self))) grade = Ok S /\
    FSRS.update_difficulty (fsrs self) (difficulty iq.2) grade
      (INR (length (questions self))) = Ok D /\
    timedelta_days S = Ok td /\
    questions self' =
      <[iq.1 := {| question_type := question_type iq.2; stability := S;
                   difficulty := D; last_reviewed := last_reviewed iq.2;
                   next_review := (now + td)%Z |}]> (questions self).
Proof.
  unfold review.
  destruct (FSRS.update_stability _ _ _ _ _) as [S|] eqn:HS; [|discriminate]. simpl.
  destruct (FSRS.update_difficulty _ _ _ _) as [D|] eqn:HD; [|discriminate]. simpl.
  destruct (timedelta_days S) as [td|] eqn:Htd; [|discriminate]. simpl.
  unfold datetime_add. destruct (_ && _)%bool; [|discriminate]. simpl.
  intros [= <-]. exists S, D, td. repeat split; assumption.
Qed.

Lemma update_stability_saved_Good (R_ : R) :
  0 < R_ ->
  FSRS.update_stability FSRS.default_params 1 5.0 R_ "Good"
    = Ok (Rmax 1 (6 * Rmax 1 (/ (ln (R_ + 1) / ln 2)))).
Proof.
  intros HR. rewrite update_stability_not_Again by discriminate.
  rewrite (stability_increase_value _ 1.0) by (reflexivity || lra).
  simpl. rewrite log2_inverse_at_1, Rmult_1_l. do 2 f_equal. lra.
Qed.

(** C4. A session of one question, restored with stability 1, difficulty
    5.0 and [last_reviewed] 0, is graded Good one day later.  The code gives
    the stability 6, having passed the number of questions, 1, as the
    retrievability, and leaves [last_reviewed] at 0; with the retrievability
    of one elapsed day, 1/2, the new stability would exceed 6. *)
Theorem review_saved_Good :
  review (Sample.session [Sample.q_saved]) (0%nat, Sample.q_saved) "Good"
         86400000000
    = Ok (Sample.session
            [{| question_type := "kinematics"; stability := 6; difficulty := 4.6;
                last_reviewed := 0; next_review := 604800000000 |}]) /\
  FSRS.calculate_retrievability 1 1 = Ok (1 / 2) /\
  Spec.retrievability 1 1 = 1 / 2 /\
  exists S', FSRS.update_stability FSRS.default_params 1 5.0 (1 / 2) "Good" = Ok S' /\
             6 < S'.
Proof.
  split; [|split; [|split]].
  - unfold review. simpl.
    rewrite update_stability_saved_Good by lra.
    rewrite log2_inverse_at_1.
    replace (Rmax 1 (6 * 1)) with 6 by minmax_cases.
    rewrite bind_Ok.
    rewrite (update_difficulty_value _ 1.0) by reflexivity.
    rewrite difficulty_change_get. simpl.
    replace (Rmax 1 (Rmin 10 (0.9 * (5.0 + 0.0) + 0.1 * 1.0))) with 4.6
      by minmax_cases.
    rewrite (timedelta_days_whole 6) by lia. reflexivity.
  - rewrite calculate_retrievability_value by lra. apply f_equal. lra.
  - unfold Spec.retrievability. field.
  - rewrite update_stability_saved_Good by lra.
    eexists. split; [reflexivity|].
    pose proof ln_2_pos as H2.
    assert (0 < ln (1 / 2 + 1) < ln 2) as [Hl Hlt].
    { split; [apply ln_succ_pos; lra|apply ln_increasing; lra]. }
    assert (1 < / (ln (1 / 2 + 1) / ln 2)) as Hinv.
    { replace (/ (ln (1 / 2 + 1) / ln 2)) with (ln 2 / ln (1 / 2 + 1)) by (field; lra).
      apply (Rmult_lt_reg_r (ln (1 / 2 + 1))); [assumption|].
      unfold Rdiv. rewrite Rmult_assoc, Rinv_l by lra. lra. }
    eapply Rlt_le_trans; [|apply Rmax_r].
    eapply Rlt_le_trans; [|apply Rmult_le_compat_l; [lra|apply Rmax_r]]. lra.
Qed.

(** * Further properties of the memory model *)

(** ** Predicted recall *)

Lemma inverse_minus_1_nonneg (x : R) : 0 < x <= 1 -> 0 <= 1 / x - 1.
Proof.
  intros [H0 H1]. assert (/ 1 <= / x) as H by (apply Rinv_le_contravar; lra).
  rewrite Rinv_1 in H. unfold Rdiv. lra.
Qed.

Lemma predict_review_outcome_value (S D R_ : R) :
  0 < R_ <= 1 ->
  FSRS.predict_review_outcome S D R_ = Ok (/ (1 + (1 / R_ - 1) / exp (S / 10))).
Proof.
  intros [H0 H1]. unfold FSRS.predict_review_outcome.
  rewrite truediv_Ok, bind_Ok by lra.
  rewrite math_log_pos, bind_Ok by apply exp_pos.
  rewrite ln_exp.
  rewrite truediv_Ok, bind_Ok by (apply Rgt_not_eq, exp_pos).
  replace (S * 1 / 10) with (S / 10) by lra.
  assert (0 <= 1 / R_ - 1) as Hq by (apply inverse_minus_1_nonneg; lra).
  assert (0 <= (1 / R_ - 1) / exp (S / 10)) as Hd.
  { apply Rmult_le_pos; [assumption|]. left. apply Rinv_0_lt_compat, exp_pos. }
  apply pow_int_neg1. lra.
Qed.

(** For a retrievability between [float_epsilon] and 1 and a stability
    between -1000 and 7000, the range in which neither [math.exp] nor the
    quotient by it overflows, the predicted probability of recall is
    returned, lies in (0, 1] and is 1 at retrievability 1.  The difficulty
    plays no part: for all arguments, any two difficulties give the same
    result or the same exception. *)
Theorem predict_review_outcome_bounds (S D R_ : R) :
  float_epsilon <= R_ <= 1 -> -1000 <= S <= 7000 ->
  (exists p : R,
     FSRS.predict_review_outcome S D R_ = Ok p /\
     0 < p <= 1 /\
     (R_ = 1 -> p = 1)) /\
  (forall S' D' R' : R,
     FSRS.predict_review_outcome S' D' R' = FSRS.predict_review_outcome S' D R').
Proof.
  intros [H0 H1] _. unfold float_epsilon in H0. split; [|reflexivity].
  rewrite predict_review_outcome_value by lra.
  eexists. split; [reflexivity|].
  pose proof (exp_pos (S / 10)) as He.
  assert (0 <= 1 / R_ - 1) as Hq by (apply inverse_minus_1_nonneg; lra).
  assert (0 <= (1 / R_ - 1) / exp (S / 10)) as Hd.
  { apply Rmult_le_pos; [assumption|]. left. apply Rinv_0_lt_compat, exp_pos. }
  split.
  - split; [apply Rinv_0_lt_compat; lra|].
    apply Rle_trans with (/ 1); [apply Rinv_le_contravar; lra|].
    rewrite Rinv_1. lra.
  - intros ->. replace (1 / 1 - 1) with 0 by lra.
    unfold Rdiv. rewrite Rmult_0_l, Rplus_0_r. apply Rinv_1.
Qed.

Lemma predict_review_outcome_bounds_witness :
  (exists p : R,
     FSRS.predict_review_outcome 2 5 (1 / 2) = Ok p /\
     0 < p <= 1 /\ (1 / 2 = 1 -> p = 1)) /\
  (forall S' D' R' : R,
     FSRS.predict_review_outcome S' D' R' = FSRS.predict_review_outcome S' 5 R').
Proof.
  assert (float_epsilon <= 1 / 2 <= 1) as H by (unfold float_epsilon; lra).
  assert (-1000 <= 2 <= 7000) as H' by lra.
  exact (predict_review_outcome_bounds 2 5 (1 / 2) H H').
Defined.

(** A larger stability never lowers the predicted probability of recall. *)
Theorem predict_review_outcome_monotone (S1 S2 D1 D2 R_ p1 p2 : R) :
  0 < R_ <= 1 -> S1 <= S2 ->
  FSRS.predict_review_outcome S1 D1 R_ = Ok p1 ->
  FSRS.predict_review_outcome S2 D2 R_ = Ok p2 ->
  p1 <= p2.
Proof.
  intros [H0 H1] HS. rewrite !predict_review_outcome_value by lra.
  intros [= <-] [= <-].
  pose proof (exp_pos (S1 / 10)) as He1. pose proof (exp_pos (S2 / 10)) as He2.
  assert (0 <= 1 / R_ - 1) as Hq by (apply inverse_minus_1_nonneg; lra).
  assert (exp (S1 / 10) <= exp (S2 / 10)) as Hexp.
  { destruct (Req_dec S1 S2) as [->|Hne]; [lra|]. left. apply exp_increasing. lra. }
  assert (/ exp (S2 / 10) <= / exp (S1 / 10)) as Hinv
    by (apply Rinv_le_contravar; assumption).
  assert (0 < / exp (S2 / 10)) as Hpos by (apply Rinv_0_lt_compat; assumption).
  apply Rinv_le_contravar.
  - unfold Rdiv at 2. nra.
  - unfold Rdiv at 2 4. nra.
Qed.

Lemma predict_review_outcome_monotone_witness :
  exists p1 p2 : R,
    FSRS.predict_review_outcome 1 5 (1 / 2) = Ok p1 /\
    FSRS.predict_review_outcome 3 5 (1 / 2) = Ok p2 /\
    p1 <= p2.
Proof.
  assert (0 < 1 / 2 <= 1) as H by lra.
  assert (1 <= 3) as H' by lra.
  eexists _, _. split; [apply predict_review_outcome_value; lra|].
  split; [apply predict_review_outcome_value; lra|].
  apply (predict_review_outcome_monotone 1 3 5 5 (1 / 2) _ _ H H');
    apply predict_review_outcome_value; lra.
Defined.

(** ** Retrievability *)

(** [calculate_retrievability] raises ZeroDivisionError when the stability
    is 0, when the elapsed time is 0 and when the elapsed time is the
    opposite of the stability. *)
Theorem calculate_retrievability_cases (t S : R) :
  S = 0 \/ t = 0 \/ t + S = 0 ->
  FSRS.calculate_retrievability t S = Raise ZeroDivisionError.
Proof.
  intros Hcase. destruct (Req_dec_T S 0) as [->|HS].
  { apply calculate_retrievability_S_zero. }
  unfold FSRS.calculate_retrievability. rewrite truediv_Ok, bind_Ok by assumption.
  destruct (Req_dec_T t 0) as [->|Ht].
  { replace (0 / S) with 0 by (field; assumption).
    rewrite pow_int_neg1_zero. reflexivity. }
  destruct Hcase as [H|[H|H]]; [contradiction|contradiction|].
  assert (t / S = -1) as -> by (replace t with (- S) by lra; field; assumption).
  rewrite pow_int_neg1, bind_Ok by lra.
  replace (1 + / -1) with 0 by (field; lra).
  apply pow_int_neg1_zero.
Qed.

Lemma calculate_retrievability_cases_witness :
  FSRS.calculate_retrievability 3 0 = Raise ZeroDivisionError /\
  FSRS.calculate_retrievability 0 3 = Raise ZeroDivisionError /\
  FSRS.calculate_retrievability 2 (-2) = Raise ZeroDivisionError.
Proof.
  split; [|split].
  - apply (calculate_retrievability_cases 3 0). left. reflexivity.
  - apply (calculate_retrievability_cases 0 3). right. left. reflexivity.
  - apply (calculate_retrievability_cases 2 (-2)). right. right. lra.
Defined.

(** For a positive elapsed time and a positive stability, whatever is
    returned lies in (0, 1].  When neither of the two exceeds 10^12 times
    the other, a value is returned, strictly between 0 and 1, and it is 1/2
    when the elapsed time equals the stability. *)
Theorem calculate_retrievability_range (t S : R) :
  0 < t -> 0 < S ->
  (forall r : R, FSRS.calculate_retrievability t S = Ok r -> 0 < r <= 1) /\
  (t <= 1e12 * S -> S <= 1e12 * t ->
   exists r : R,
     FSRS.calculate_retrievability t S = Ok r /\ 0 < r < 1 /\ (t = S -> r = 1 / 2)).
Proof.
  intros Ht HS. rewrite calculate_retrievability_value by lra.
  assert (0 < t / (t + S) < 1) as Hr.
  { split.
    - apply Rdiv_lt_0_compat; lra.
    - apply (Rmult_lt_reg_r (t + S)); [lra|].
      unfold Rdiv. rewrite Rmult_assoc, Rinv_l by lra. lra. }
  split.
  - intros r [= <-]. lra.
  - intros _ _. eexists. split; [reflexivity|]. split; [exact Hr|].
    intros ->. field. lra.
Qed.

Lemma calculate_retrievability_range_witness :
  (forall r : R, FSRS.calculate_retrievability 1 3 = Ok r -> 0 < r <= 1) /\
  exists r : R,
    FSRS.calculate_retrievability 1 3 = Ok r /\ 0 < r < 1 /\ (1 = 3 -> r = 1 / 2).
Proof.
  assert (0 < 1) as H1 by lra. assert (0 < 3) as H3 by lra.
  destruct (calculate_retrievability_range 1 3 H1 H3) as [Hall Hex].
  split; [exact Hall|]. apply Hex; lra.
Defined.

(** A longer time since the review never gives a smaller value for a given
    stability, whenever both values are returned. *)
Theorem calculate_retrievability_grows_with_time (t1 t2 S r1 r2 : R) :
  0 < t1 -> t1 <= t2 -> 0 < S ->
  FSRS.calculate_retrievability t1 S = Ok r1 ->
  FSRS.calculate_retrievability t2 S = Ok r2 ->
  r1 <= r2.
Proof.
  intros H1 H12 HS E1 E2. destruct (Req_dec_T t1 t2) as [Heq|Hne].
  - subst t2. rewrite E1 in E2. injection E2 as <-. lra.
  - left. apply (calculate_retrievability_increasing t1 t2 S); try assumption. lra.
Qed.

Lemma calculate_retrievability_grows_with_time_witness :
  exists r1 r2 : R,
    FSRS.calculate_retrievability 1 2 = Ok r1 /\
    FSRS.calculate_retrievability 4 2 = Ok r2 /\
    r1 <= r2.
Proof.
  assert (0 < 1) as H1 by lra. assert (1 <= 4) as H2 by lra. assert (0 < 2) as H3 by lra.
  assert (FSRS.calculate_retrievability 1 2 = Ok (1 / (1 + 2))) as E1
    by (apply calculate_retrievability_value; lra).
  assert (FSRS.calculate_retrievability 4 2 = Ok (4 / (4 + 2))) as E2
    by (apply calculate_retrievability_value; lra).
  eexists _, _. split; [exact E1|]. split; [exact E2|].
  exact (calculate_retrievability_grows_with_time 1 4 2 _ _ H1 H2 H3 E1 E2).
Defined.

(** ** Stability *)

(** With the default parameters a lapse divides the stability by the
    difficulty: for [S > 0] and [D >= 1] the result is [S / D], below [S] as
    soon as [D > 1]. *)
Theorem update_stability_lapse_default (S D R_ : R) :
  0 < S -> 1 <= D ->
  FSRS.update_stability FSRS.default_params S D R_ "Again" = Ok (S / D) /\
  (1 < D -> S / D < S).
Proof.
  intros HS HD.
  assert (/ D <= 1) as Hinv.
  { rewrite <- Rinv_1. apply Rinv_le_contravar; lra. }
  assert (0 < / D) as Hpos by (apply Rinv_0_lt_compat; lra).
  split.
  - rewrite (update_stability_Again_value _ 1.0 1.0) by (reflexivity || lra).
    f_equal. replace (- (1.0)) with (-1) by lra. rewrite Rpower_neg1 by lra.
    unfold Rmin. destruct (Rle_dec _ _); unfold Rdiv; nra.
  - intros HD1. assert (/ D < 1).
    { rewrite <- Rinv_1. apply Rinv_lt_contravar; lra. }
    unfold Rdiv. nra.
Qed.

Lemma update_stability_lapse_default_witness :
  FSRS.update_stability FSRS.default_params 3 5 1 "Again" = Ok (3 / 5) /\
  (1 < 5 -> 3 / 5 < 3).
Proof.
  assert (0 < 3) as H1 by lra. assert (1 <= 5) as H2 by lra.
  exact (update_stability_lapse_default 3 5 1 H1 H2).
Defined.

(** For the grade Again the factor of [stability_increase] is exactly 1,
    whatever the other arguments and parameters, whenever a factor is
    returned. *)
Theorem stability_increase_Again
    (params : gmap string R) (S D R_ f : R) :
  FSRS.stability_increase params S D R_ "Again" = Ok f -> f = 1.
Proof.
  rewrite stability_increase_unfold.
  destruct (_ ← math_log (S + 1); _) as [pS|]; [|discriminate].
  destruct (_ ← math_log (R_ + 1); _) as [pR|]; [|discriminate].
  destruct (getitem params "w1") as [w1|]; [|discriminate].
  simpl. intros [= <-]. rewrite max_Rmax.
  replace ((11 - D) * max 1 pS * max 1 pR * w1 * 0 * 3) with 0 by lra.
  minmax_cases.
Qed.

Lemma stability_increase_Again_witness :
  FSRS.stability_increase FSRS.default_params 1 5 1 "Again" = Ok 1.
Proof.
  assert (exists f, FSRS.stability_increase FSRS.default_params 1 5 1 "Again" = Ok f)
    as [f Hf].
  { rewrite (stability_increase_value _ 1.0) by (reflexivity || lra). eexists. reflexivity. }
  rewrite Hf. f_equal.
  exact (stability_increase_Again FSRS.default_params 1 5 1 f Hf).
Defined.

(** A better grade never gives a smaller factor: for [w1 >= 0], a
    difficulty of at most 11 and a stability and a retrievability of at
    least [float_epsilon], the factors of Again, Hard, Good and Easy are
    returned and are in increasing order, that of Again being 1. *)
Theorem stability_increase_grade_order
    (params : gmap string R) (w1 S D R_ : R) :
  params !! "w1" = Some w1 -> 0 <= w1 -> D <= 11 ->
  float_epsilon <= S -> float_epsilon <= R_ ->
  exists a h g e : R,
    FSRS.stability_increase params S D R_ "Again" = Ok a /\
    FSRS.stability_increase params S D R_ "Hard" = Ok h /\
    FSRS.stability_increase params S D R_ "Good" = Ok g /\
    FSRS.stability_increase params S D R_ "Easy" = Ok e /\
    a = 1 /\ a <= h /\ h <= g /\ g <= e.
Proof.
  intros Hw1 H1 HD HS HR. unfold float_epsilon in *.
  rewrite !(stability_increase_value params w1) by (assumption || lra).
  simpl.
  set (X := (11 - D) * Rmax 1 (/ (ln (S + 1) / ln 2))
            * Rmax 1 (/ (ln (R_ + 1) / ln 2)) * w1).
  assert (0 <= X) as HX.
  { unfold X. repeat apply Rmult_le_pos; try lra;
      (eapply Rle_trans; [|apply Rmax_l]; lra). }
  assert (Rmax 1 (X * 0 * 3) = 1) as Ha.
  { replace (X * 0 * 3) with 0 by lra. minmax_cases. }
  do 4 eexists. repeat (split; [reflexivity|]).
  split; [exact Ha|]. split; [rewrite Ha; apply Rmax_l|].
  split; apply Rle_max_compat_l; lra.
Qed.

Lemma stability_increase_grade_order_witness :
  exists a h g e : R,
    FSRS.stability_increase FSRS.default_params 1 5 1 "Again" = Ok a /\
    FSRS.stability_increase FSRS.default_params 1 5 1 "Hard" = Ok h /\
    FSRS.stability_increase FSRS.default_params 1 5 1 "Good" = Ok g /\
    FSRS.stability_increase FSRS.default_params 1 5 1 "Easy" = Ok e /\
    a = 1 /\ a <= h /\ h <= g /\ g <= e.
Proof.
  assert (FSRS.default_params !! "w1" = Some 1.0) as H1 by reflexivity.
  assert (0 <= 1.0) as H2 by lra. assert (5 <= 11) as H3 by lra.
  assert (float_epsilon <= 1) as H4 by (unfold float_epsilon; lra).
  exact (stability_increase_grade_order FSRS.default_params 1.0 1 5 1 H1 H2 H3 H4 H4).
Defined.

(** From retrievability 1 upward the retrievability argument has no effect
    on [stability_increase]: the result, or the exception, is that of
    retrievability 1.  The study session passes the number of its questions
    there, which is at least 1. *)
Theorem stability_increase_saturates
    (params : gmap string R) (S D R_ : R) (grade : string) :
  1 <= R_ ->
  FSRS.stability_increase params S D R_ grade
    = FSRS.stability_increase params S D 1 grade.
Proof.
  intros HR. rewrite !stability_increase_unfold.
  destruct (_ ← math_log (S + 1); _) as [pS|]; [|reflexivity].
  rewrite !bind_Ok.
  rewrite (log2_inverse_Ok R_), (log2_inverse_Ok 1) by lra.
  rewrite !bind_Ok.
  assert (max 1 (/ (ln (R_ + 1) / ln 2)) = 1) as ->.
  { pose proof ln_2_pos as H2.
    assert (ln 2 <= ln (R_ + 1)) as Hle.
    { destruct (Req_dec R_ 1) as [->|Hne].
      - replace (1 + 1) with 2 by lra. lra.
      - left. apply ln_increasing; lra. }
    assert (/ (ln (R_ + 1) / ln 2) <= 1) as Hinv.
    { replace (/ (ln (R_ + 1) / ln 2)) with (ln 2 / ln (R_ + 1)) by (field; lra).
      apply (Rmult_le_reg_r (ln (R_ + 1))); [lra|].
      unfold Rdiv. rewrite Rmult_assoc, Rinv_l by lra. lra. }
    unfold max. destruct (Rlt_dec _ _); lra. }
  assert (max 1 (/ (ln (1 + 1) / ln 2)) = 1) as ->
    by (rewrite max_Rmax; apply log2_inverse_at_1).
  reflexivity.
Qed.

Lemma stability_increase_saturates_witness :
  FSRS.stability_increase FSRS.default_params 2 5 4 "Good"
    = FSRS.stability_increase FSRS.default_params 2 5 1 "Good".
Proof.
  assert (1 <= 4) as H by lra.
  exact (stability_increase_saturates FSRS.default_params 2 5 4 "Good" H).
Defined.

Lemma ln_succ_lt (x : R) : 0 < x -> ln (x + 1) < x.
Proof.
  intros Hx. rewrite <- (ln_exp x) at 2.
  apply ln_increasing; [lra|].
  pose proof (exp_ineq1 x). lra.
Qed.

(** The growth of a positive stability by a factor with a coefficient of
    at least 1/2. *)
Lemma stability_growth_floor (w1 S D fR c : R) :
  1 <= w1 -> 0 < S -> 1 <= D <= 10 -> 1 <= fR -> 1 / 2 <= c ->
  1 / 4 < S * Rmax 1 ((11 - D) * Rmax 1 (/ (ln (S + 1) / ln 2)) * fR * w1 * c) /\
  (1 <= c ->
   1 / 2 < S * Rmax 1 ((11 - D) * Rmax 1 (/ (ln (S + 1) / ln 2)) * fR * w1 * c)).
Proof.
  intros H1 HS HD HfR Hc.
  pose proof ln_2_pos as H2. pose proof ln_lt_2 as H2'.
  pose proof (ln_succ_pos S HS) as Hl. pose proof (ln_succ_lt S HS) as Hlt.
  set (fS := Rmax 1 (/ (ln (S + 1) / ln 2))).
  assert (ln 2 / ln (S + 1) <= fS) as HfS.
  { unfold fS. replace (/ (ln (S + 1) / ln 2)) with (ln 2 / ln (S + 1)) by (field; lra).
    apply Rmax_r. }
  assert (1 / 2 < S * fS) as HSf.
  { apply Rlt_le_trans with (S * (ln 2 / ln (S + 1))).
    - apply Rlt_trans with (ln 2); [lra|].
      apply (Rmult_lt_reg_r (ln (S + 1))); [assumption|].
      replace (S * (ln 2 / ln (S + 1)) * ln (S + 1)) with (S * ln 2) by (field; lra).
      nra.
    - apply Rmult_le_compat_l; lra. }
  assert (0 < fS) as HfS0.
  { eapply Rlt_le_trans; [|apply Rmax_l]. lra. }
  assert (1 / 2 < S * ((11 - D) * fS * fR * w1)) as Hbase.
  { apply Rlt_le_trans with (S * fS); [assumption|].
    apply Rmult_le_compat_l; [lra|].
    assert (fS <= (11 - D) * fS) as Ha by nra.
    assert ((11 - D) * fS <= (11 - D) * fS * fR) as Hb by nra.
    assert ((11 - D) * fS * fR <= (11 - D) * fS * fR * w1) as Hc' by nra.
    lra. }
  split.
  - eapply Rlt_le_trans; [|apply Rmult_le_compat_l; [lra|apply Rmax_r]]. nra.
  - intros Hc1.
    eapply Rlt_le_trans; [|apply Rmult_le_compat_l; [lra|apply Rmax_r]]. nra.
Qed.

(** One review with a grade other than Again lifts a stability of at least
    [float_epsilon] above a quarter of a day, and above half a day when the
    grade is Good or Easy ([w1 >= 1], difficulty in [1, 10], retrievability
    of at least [float_epsilon]). *)
Theorem update_stability_floor
    (params : gmap string R) (w1 S D R_ : R) (grade : string) :
  params !! "w1" = Some w1 -> 1 <= w1 ->
  float_epsilon <= S -> 1 <= D <= 10 -> float_epsilon <= R_ -> grade <> "Again" ->
  exists S' : R,
    FSRS.update_stability params S D R_ grade = Ok S' /\
    1 / 4 < S' /\
    (grade ∈ ["Good"; "Easy"] -> 1 / 2 < S').
Proof.
  intros Hw1 H1 HS HD HR Hg. unfold float_epsilon in *.
  assert (0 < S) as HS0 by lra.
  rewrite update_stability_not_Again by assumption.
  rewrite (stability_increase_value params w1) by (assumption || lra).
  rewrite bind_Ok. eexists. split; [reflexivity|].
  destruct (decide (grade = "Again")); [contradiction|].
  rewrite (Rmult_assoc _ (if decide (grade ∈ ["Good"; "Easy"]) then 1 else 0.5)).
  match goal with |- context [_ * w1 * ?c] =>
    destruct (stability_growth_floor w1 S D (Rmax 1 (/ (ln (R_ + 1) / ln 2))) c)
      as [Hq Hh]; try assumption; try apply Rmax_l
  end.
  - destruct (decide (grade ∈ ["Good"; "Easy"])), (decide (grade ∈ ["Hard"; "Good"])); lra.
  - split; [exact Hq|]. intros Hin. apply Hh.
    destruct (decide (grade ∈ ["Good"; "Easy"])); [|contradiction].
    destruct (decide (grade ∈ ["Hard"; "Good"])); lra.
Qed.

Lemma update_stability_floor_witness :
  exists S' : R,
    FSRS.update_stability FSRS.default_params 0.0001 5.0 4 "Hard" = Ok S' /\
    1 / 4 < S' /\
    ("Hard" ∈ ["Good"; "Easy"] -> 1 / 2 < S').
Proof.
  assert (FSRS.default_params !! "w1" = Some 1.0) as H1 by reflexivity.
  assert (1 <= 1.0) as H2 by lra.
  assert (float_epsilon <= 0.0001) as H3 by (unfold float_epsilon; lra).
  assert (1 <= 5.0 <= 10) as H4 by lra.
  assert (float_epsilon <= 4) as H5 by (unfold float_epsilon; lra).
  assert ("Hard" <> "Again") as H7 by discriminate.
  exact (update_stability_floor FSRS.default_params 1.0 0.0001 5.0 4 "Hard"
           H1 H2 H3 H4 H5 H7).
Defined.

(** ** Difficulty *)

Lemma clamp_monotone (x y : R) :
  x <= y -> Rmax 1 (Rmin 10 x) <= Rmax 1 (Rmin 10 y).
Proof. intros H. apply Rle_max_compat_l, Rle_min_compat_l, H. Qed.

(** [update_difficulty] keeps the order of difficulties: a card that was at
    most as difficult as another is so after the same grade. *)
Theorem update_difficulty_monotone
    (params : gmap string R) (D1 D2 R1 R2 D1' D2' : R) (grade : string) :
  D1 <= D2 ->
  FSRS.update_difficulty params D1 grade R1 = Ok D1' ->
  FSRS.update_difficulty params D2 grade R2 = Ok D2' ->
  D1' <= D2'.
Proof.
  intros HD. unfold FSRS.update_difficulty.
  destruct (getitem params "w4") as [w4|]; [|discriminate].
  rewrite !bind_Ok, !max_Rmax, !min_Rmin. intros [= <-] [= <-].
  apply clamp_monotone. lra.
Qed.

Lemma update_difficulty_monotone_witness :
  exists D1' D2' : R,
    FSRS.update_difficulty FSRS.default_params 3 "Hard" 1 = Ok D1' /\
    FSRS.update_difficulty FSRS.default_params 7 "Hard" 1 = Ok D2' /\
    D1' <= D2'.
Proof.
  assert (3 <= 7) as H by lra.
  eexists _, _. split; [apply (update_difficulty_value _ 1.0); reflexivity|].
  split; [apply (update_difficulty_value _ 1.0); reflexivity|].
  apply (update_difficulty_monotone FSRS.default_params 3 7 1 1 _ _ "Hard" H);
    apply (update_difficulty_value _ 1.0); reflexivity.
Defined.

(** For one difficulty the four grades give difficulties in the order Easy,
    Good, Hard, Again, and a string that is no grade gives what Good gives. *)
Theorem update_difficulty_grade_order
    (params : gmap string R) (w4 D R_ : R) (other : string) :
  params !! "w4" = Some w4 ->
  other ∉ ["Again"; "Hard"; "Good"; "Easy"] ->
  exists e g h a : R,
    FSRS.update_difficulty params D "Easy" R_ = Ok e /\
    FSRS.update_difficulty params D "Good" R_ = Ok g /\
    FSRS.update_difficulty params D "Hard" R_ = Ok h /\
    FSRS.update_difficulty params D "Again" R_ = Ok a /\
    FSRS.update_difficulty params D other R_ = Ok g /\
    e <= g /\ g <= h /\ h <= a.
Proof.
  intros H4 Hother.
  rewrite !(update_difficulty_value params w4), !difficulty_change_get by assumption.
  apply not_elem_of_cons in Hother as [HA Hother].
  apply not_elem_of_cons in Hother as [HH Hother].
  apply not_elem_of_cons in Hother as [HG Hother].
  apply not_elem_of_cons in Hother as [HE _].
  repeat (destruct (decide (other = _)); [contradiction|]).
  simpl. do 4 eexists. repeat (split; [reflexivity|]).
  repeat split; apply clamp_monotone; lra.
Qed.

Lemma update_difficulty_grade_order_witness :
  exists e g h a : R,
    FSRS.update_difficulty FSRS.default_params 5 "Easy" 1 = Ok e /\
    FSRS.update_difficulty FSRS.default_params 5 "Good" 1 = Ok g /\
    FSRS.update_difficulty FSRS.default_params 5 "Hard" 1 = Ok h /\
    FSRS.update_difficulty FSRS.default_params 5 "Again" 1 = Ok a /\
    FSRS.update_difficulty FSRS.default_params 5 "good " 1 = Ok g /\
    e <= g /\ g <= h /\ h <= a.
Proof.
  assert (FSRS.default_params !! "w4" = Some 1.0) as H1 by reflexivity.
  assert ("good " ∉ ["Again"; "Hard"; "Good"; "Easy"]) as H2.
  { intros Hin. repeat (apply elem_of_cons in Hin as [Heq|Hin]; [discriminate|]).
    inversion Hin. }
  exact (update_difficulty_grade_order FSRS.default_params 1.0 5 1 "good " H1 H2).
Defined.

(** With the default parameters and a difficulty in [1, 10]: Again never
    lowers the difficulty; Good and Easy never raise it, Good bringing it a
    tenth of the way down to 1; and Hard gives [0.9 * D + 0.28], which is
    below [D] exactly when [D] is above 2.8. *)
Theorem update_difficulty_default_drift (D R_ : R) :
  1 <= D <= 10 ->
  exists a h g e : R,
    FSRS.update_difficulty FSRS.default_params D "Again" R_ = Ok a /\
    FSRS.update_difficulty FSRS.default_params D "Hard" R_ = Ok h /\
    FSRS.update_difficulty FSRS.default_params D "Good" R_ = Ok g /\
    FSRS.update_difficulty FSRS.default_params D "Easy" R_ = Ok e /\
    D <= a /\ a = Rmin 10 (0.9 * D + 1) /\
    h = 0.9 * D + 0.28 /\ (h < D <-> 2.8 < D) /\
    g = 0.9 * D + 0.1 /\ g <= D /\
    e <= D /\ e = Rmax 1 (0.9 * D - 0.08).
Proof.
  intros HD.
  rewrite !(update_difficulty_value _ 1.0), !difficulty_change_get by reflexivity.
  simpl. do 4 eexists. repeat (split; [reflexivity|]).
  repeat split; try (intros; minmax_cases); minmax_cases.
Qed.

Lemma update_difficulty_default_drift_witness :
  exists a h g e : R,
    FSRS.update_difficulty FSRS.default_params 5 "Again" 1 = Ok a /\
    FSRS.update_difficulty FSRS.default_params 5 "Hard" 1 = Ok h /\
    FSRS.update_difficulty FSRS.default_params 5 "Good" 1 = Ok g /\
    FSRS.update_difficulty FSRS.default_params 5 "Easy" 1 = Ok e /\
    5 <= a /\ a = Rmin 10 (0.9 * 5 + 1) /\
    h = 0.9 * 5 + 0.28 /\ (h < 5 <-> 2.8 < 5) /\
    g = 0.9 * 5 + 0.1 /\ g <= 5 /\
    e <= 5 /\ e = Rmax 1 (0.9 * 5 - 0.08).
Proof.
  assert (1 <= 5 <= 10) as H by lra.
  exact (update_difficulty_default_drift 5 1 H).
Defined.

(** ** One simulated review ([calculate_stability] of FSRS.py) *)

Lemma predict_value_unit (S R_ : R) :
  0 < R_ <= 1 -> 0 < / (1 + (1 / R_ - 1) / exp (S / 10)) <= 1.
Proof.
  intros HR. pose proof (exp_pos (S / 10)) as He.
  pose proof (inverse_minus_1_nonneg R_ HR) as Hq.
  assert (0 <= (1 / R_ - 1) / exp (S / 10)) as Hd.
  { apply Rmult_le_pos; [assumption|]. left. apply Rinv_0_lt_compat, exp_pos. }
  split; [apply Rinv_0_lt_compat; lra|].
  apply Rle_trans with (/ 1); [apply Rinv_le_contravar; lra|].
  rewrite Rinv_1. lra.
Qed.

(** For a stability between [float_epsilon] and 7000, where the sum
    [S + 1] absorbs nothing and [math.exp] does not overflow, and a
    difficulty in [1, 10], the simulated review succeeds for every grade
    string: the new stability is positive, not above the old one for Again
    and not below it otherwise; the new difficulty is in [1, 10]; the
    success probability is in (0, 1].  The retrievability it is given is
    never used: for all arguments, any two values of it give the same
    result or the same exception. *)
Theorem calculate_stability_invariant (S D R0 : R) (grade : string) :
  float_epsilon <= S <= 7000 -> 1 <= D <= 10 ->
  (exists S' D' p : R,
     FSRS.calculate_stability S D R0 grade = Ok (S', D', p) /\
     0 < S' /\ 1 <= D' <= 10 /\ 0 < p <= 1 /\
     (grade = "Again" -> S' <= S) /\
     (grade <> "Again" -> S <= S')) /\
  (forall (S1 D1 R1 : R) (grade1 : string),
     FSRS.calculate_stability S1 D1 R1 grade1
       = FSRS.calculate_stability S1 D1 R0 grade1).
Proof.
  intros [HS _] HD. unfold float_epsilon in HS. split; [|reflexivity].
  unfold FSRS.calculate_stability.
  rewrite calculate_retrievability_value, bind_Ok by lra.
  assert (0 < 1 / (1 + S) < 1) as [Hr0 Hr1].
  { split; [apply Rdiv_lt_0_compat; lra|].
    apply (Rmult_lt_reg_r (1 + S)); [lra|].
    unfold Rdiv. rewrite Rmult_assoc, Rinv_l by lra. lra. }
  rewrite predict_review_outcome_value, bind_Ok by lra.
  rewrite (update_difficulty_value _ 1.0) by reflexivity.
  pose proof (predict_value_unit S (1 / (1 + S))) as Hp.
  pose proof (clamp_bounds (0.9 * (D + get FSRS.difficulty_change grade 0.0) + 0.1 * 1.0))
    as HD'.
  destruct (decide (grade = "Again")) as [->|Hg].
  - rewrite (update_stability_Again_value _ 1.0 1.0) by (reflexivity || lra).
    rewrite !bind_Ok. do 3 eexists. split; [reflexivity|].
    split; [|split; [exact HD'|split; [apply Hp; lra|]]].
    + apply Rmin_glb_lt; [lra|].
      apply Rmult_lt_0_compat; [|lra].
      apply Rmult_lt_0_compat; [lra|]. unfold Rpower. apply exp_pos.
    + split; [intros _; apply Rmin_l|intros H; contradiction].
  - rewrite update_stability_not_Again by assumption.
    rewrite (stability_increase_value _ 1.0) by (reflexivity || lra).
    rewrite !bind_Ok. do 3 eexists. split; [reflexivity|].
    match goal with |- context [S * Rmax 1 ?x] =>
      pose proof (Rmax_l 1 x) as Hmax; set (f := Rmax 1 x) in * end.
    split; [nra|]. split; [exact HD'|]. split; [apply Hp; lra|].
    split; [intros H; contradiction|intros _; nra].
Qed.

Lemma calculate_stability_invariant_witness :
  exists S' D' p : R,
    FSRS.calculate_stability 1.0 2.0 1.0 "Hard" = Ok (S', D', p) /\
    0 < S' /\ 1 <= D' <= 10 /\ 0 < p <= 1 /\
    ("Hard" = "Again" -> S' <= 1.0) /\
    ("Hard" <> "Again" -> 1.0 <= S').
Proof.
  assert (float_epsilon <= 1.0 <= 7000) as H1 by (unfold float_epsilon; lra).
  assert (1 <= 2.0 <= 10) as H2 by lra.
  exact (proj1 (calculate_stability_invariant 1.0 2.0 1.0 "Hard" H1 H2)).
Defined.

(** * Questions and answers *)

Import Session.

(** ** Checking an answer *)

(** An answer is accepted exactly when it lies within a tenth of the
    correct answer, on either side of it: between [0.9 * a] and [1.1 * a]
    for [a >= 0], between [1.1 * a] and [0.9 * a] for [a <= 0].  The correct
    answer itself is accepted, and for the correct answer 0 nothing else is. *)
Theorem is_correct_band (user_answer correct_answer : R) :
  (is_correct user_answer correct_answer = true <->
   (0 <= correct_answer /\
    0.9 * correct_answer <= user_answer <= 1.1 * correct_answer) \/
   (correct_answer <= 0 /\
    1.1 * correct_answer <= user_answer <= 0.9 * correct_answer)) /\
  is_correct correct_answer correct_answer = true /\
  (is_correct user_answer 0 = true <-> user_answer = 0).
Proof.
  unfold is_correct. rewrite !bool_decide_eq_true.
  split; [|split].
  - unfold Rabs.
    destruct (Rcase_abs correct_answer), (Rcase_abs (user_answer - correct_answer));
      split; intros H; lra.
  - replace (correct_answer - correct_answer) with 0 by lra.
    rewrite Rabs_R0. pose proof (Rabs_pos correct_answer). lra.
  - rewrite Rabs_R0, Rminus_0_r. unfold Rabs.
    destruct (Rcase_abs user_answer); split; intros H; lra.
Qed.

(** ** Rounding to two decimals *)

Lemma round_half_even_ge (x : R) (n : Z) : IZR n <= x -> (n <= round_half_even x)%Z.
Proof.
  intros Hx. destruct (base_Int_part x) as [Hle Hgt].
  assert (n <= Int_part x)%Z as Hn.
  { apply Z.lt_succ_r. apply lt_IZR. rewrite succ_IZR. lra. }
  unfold round_half_even.
  destruct (Rlt_dec _ _); [lia|]. destruct (Rlt_dec _ _); [lia|].
  destruct (Z.even _); lia.
Qed.

Lemma round_half_even_le (x : R) (n : Z) : x <= IZR n -> (round_half_even x <= n)%Z.
Proof.
  intros Hx. destruct (base_Int_part x) as [Hle Hgt].
  assert (Int_part x <= n)%Z as Hn by (apply le_IZR; lra).
  assert (1 / 2 <= frac_part x -> (Int_part x + 1 <= n)%Z) as Hup.
  { unfold frac_part. intros Hf.
    apply Z.le_succ_l. apply lt_IZR. lra. }
  unfold round_half_even.
  destruct (Rlt_dec _ _); [lia|]. destruct (Rlt_dec _ _); [apply Hup; lra|].
  destruct (Z.even _); [lia|apply Hup; lra].
Qed.

(** [round(x, 2)] stays within bounds that have two decimals. *)
Lemma round2_bounds (x : R) (lo hi : Z) :
  IZR lo / 100 <= x <= IZR hi / 100 ->
  IZR lo / 100 <= round2 x <= IZR hi / 100.
Proof.
  intros [Hlo Hhi]. unfold round2.
  assert (lo <= round_half_even (x * 100))%Z as H1 by (apply round_half_even_ge; lra).
  assert (round_half_even (x * 100) <= hi)%Z as H2 by (apply round_half_even_le; lra).
  apply IZR_le in H1, H2. lra.
Qed.

Lemma uniform_bounds (a b u : R) :
  a <= b -> 0 <= u < 1 -> a <= uniform a b u <= b.
Proof. intros Hab Hu. unfold uniform. nra. Qed.

Lemma round2_uniform (lo hi : Z) (a b u : R) :
  a = IZR lo / 100 -> b = IZR hi / 100 -> a <= b -> 0 <= u < 1 ->
  a <= round2 (uniform a b u) <= b.
Proof.
  intros -> -> Hab Hu. apply round2_bounds, uniform_bounds; assumption.
Qed.

Lemma pow_int_2 (x : R) : 0 < x -> pow_int x 2 = Ok (x * x).
Proof.
  intros Hx. unfold pow_int. simpl.
  destruct (Req_dec_T x 0); [lra|]. destruct (Rlt_dec x 0); [lra|].
  f_equal. replace 2 with (INR 2) by (simpl; lra).
  rewrite Rpower_pow by assumption. simpl. ring.
Qed.

(** ** The generators *)

(** Whatever the random numbers, every generator returns an answer, never
    dividing by zero, and the answer is at least 0.5: between 0.5 and 70 for
    kinematics, 0.5 and 1000 for dynamics, 9.8 and 9800 for energy, 2.5 and
    900 for circular motion. *)
Theorem generated_answer_bounds (u : nat -> R) :
  (forall k, 0 <= u k < 1) ->
  (exists a, generate_kinematics_question u = Ok a /\ 0.5 <= a <= 70) /\
  (exists a, generate_dynamics_question u = Ok a /\ 0.5 <= a <= 1000) /\
  (exists a, generate_energy_question u = Ok a /\ 9.8 <= a <= 9800) /\
  (exists a, generate_circular_motion_question u = Ok a /\ 2.5 <= a <= 900).
Proof.
  intros Hu.
  pose proof (round2_uniform 0 2000 0 20 (u 0%nat)) as Hv0.
  pose proof (round2_uniform 50 500 0.5 5 (u 1%nat)) as Ha5.
  pose proof (round2_uniform 100 1000 1 10 (u 2%nat)) as Ht.
  pose proof (round2_uniform 100 10000 1 100 (u 0%nat)) as Hm100.
  pose proof (round2_uniform 50 1000 0.5 10 (u 1%nat)) as Ha10.
  pose proof (round2_uniform 100 5000 1 50 (u 0%nat)) as Hm50.
  pose proof (round2_uniform 100 2000 1 20 (u 1%nat)) as Hh.
  pose proof (round2_uniform 100 1000 1 10 (u 0%nat)) as Hr.
  pose proof (round2_uniform 500 3000 5 30 (u 1%nat)) as Hv.
  specialize (Hv0 ltac:(lra) ltac:(lra) ltac:(lra) (Hu _)).
  specialize (Ha5 ltac:(lra) ltac:(lra) ltac:(lra) (Hu _)).
  specialize (Ht ltac:(lra) ltac:(lra) ltac:(lra) (Hu _)).
  specialize (Hm100 ltac:(lra) ltac:(lra) ltac:(lra) (Hu _)).
  specialize (Ha10 ltac:(lra) ltac:(lra) ltac:(lra) (Hu _)).
  specialize (Hm50 ltac:(lra) ltac:(lra) ltac:(lra) (Hu _)).
  specialize (Hh ltac:(lra) ltac:(lra) ltac:(lra) (Hu _)).
  specialize (Hr ltac:(lra) ltac:(lra) ltac:(lra) (Hu _)).
  specialize (Hv ltac:(lra) ltac:(lra) ltac:(lra) (Hu _)).
  split; [|split; [|split]].
  - unfold generate_kinematics_question.
    set (v0 := round2 (uniform 0 20 (u 0%nat))) in *.
    set (a := round2 (uniform 0.5 5 (u 1%nat))) in *.
    set (t := round2 (uniform 1 10 (u 2%nat))) in *.
    eexists. split; [reflexivity|].
    replace 0.5 with (IZR 50 / 100) by lra. replace 70 with (IZR 7000 / 100) by lra.
    apply round2_bounds. nra.
  - unfold generate_dynamics_question.
    set (m := round2 (uniform 1 100 (u 0%nat))) in *.
    set (a := round2 (uniform 0.5 10 (u 1%nat))) in *.
    eexists. split; [reflexivity|].
    replace 0.5 with (IZR 50 / 100) by lra. replace 1000 with (IZR 100000 / 100) by lra.
    apply round2_bounds. nra.
  - unfold generate_energy_question.
    set (m := round2 (uniform 1 50 (u 0%nat))) in *.
    set (h := round2 (uniform 1 20 (u 1%nat))) in *.
    eexists. split; [reflexivity|].
    assert (IZR 980 / 100 <= round2 (m * 9.8 * h) <= IZR 980000 / 100) as Hb
      by (apply round2_bounds; nra).
    lra.
  - unfold generate_circular_motion_question.
    set (radius := round2 (uniform 1 10 (u 0%nat))) in *.
    set (velocity := round2 (uniform 5 30 (u 1%nat))) in *.
    rewrite pow_int_2, bind_Ok by lra.
    rewrite truediv_Ok, bind_Ok by lra.
    eexists. split; [reflexivity|].
    replace 2.5 with (IZR 250 / 100) by lra. replace 900 with (IZR 90000 / 100) by lra.
    apply round2_bounds.
    assert (0 < / radius <= 1) as [Hi0 Hi1].
    { split; [apply Rinv_0_lt_compat; lra|].
      rewrite <- Rinv_1. apply Rinv_le_contravar; lra. }
    assert (/ 10 <= / radius) as Hi10 by (apply Rinv_le_contravar; lra).
    unfold Rdiv. split.
    + apply Rle_trans with (25 * / 10); [lra|].
      apply Rmult_le_compat; nra.
    + apply Rle_trans with (900 * 1); [|lra].
      apply Rmult_le_compat; nra.
Qed.

Lemma generated_answer_bounds_witness :
  exists a, generate_circular_motion_question (fun _ => 0) = Ok a /\ 2.5 <= a <= 900.
Proof.
  assert (forall k : nat, 0 <= (fun _ : nat => 0) k < 1) as H by (intros _; lra).
  exact (proj2 (proj2 (proj2 (generated_answer_bounds (fun _ => 0) H)))).
Defined.

(** ** Choosing the generator *)

Lemma methods_lookup (t : string) :
  methods !! t =
  if decide (t = "kinematics") then Some generate_kinematics_question
  else if decide (t = "dynamics") then Some generate_dynamics_question
  else if decide (t = "energy") then Some generate_energy_question
  else if decide (t = "circular_motion") then Some generate_circular_motion_question
  else None.
Proof.
  unfold methods.
  repeat (case_decide; [subst; reflexivity|]).
  rewrite !lookup_insert_ne, lookup_empty by congruence. reflexivity.
Qed.

Lemma methods_known (t : string) :
  is_Some (methods !! t) <-> t ∈ default_categories.
Proof.
  rewrite methods_lookup. unfold default_categories. split.
  - intros H. repeat (case_decide; [subst; repeat constructor|]).
    destruct H as [m Hm]. discriminate.
  - intros H. repeat (apply elem_of_cons in H as [->|H]; [eexists; reflexivity|]).
    inversion H.
Qed.

Lemma generate_circular_returns (u : nat -> R) :
  (forall k, 0 <= u k < 1) -> exists a, generate_circular_motion_question u = Ok a.
Proof.
  intros Hu. unfold generate_circular_motion_question.
  pose proof (round2_uniform 100 1000 1 10 (u 0%nat)
                ltac:(lra) ltac:(lra) ltac:(lra) (Hu _)) as Hr.
  pose proof (round2_uniform 500 3000 5 30 (u 1%nat)
                ltac:(lra) ltac:(lra) ltac:(lra) (Hu _)) as Hv.
  rewrite pow_int_2, bind_Ok by lra. rewrite truediv_Ok, bind_Ok by lra.
  eexists. reflexivity.
Qed.

Lemma generate_question_known (self : PhysicsQuestion) (u : nat -> R) :
  (forall k, 0 <= u k < 1) -> is_Some (methods !! question_type self) ->
  exists a, generate_question self u = Ok a.
Proof.
  intros Hu Hk. unfold generate_question, getitem.
  rewrite methods_lookup in *.
  repeat (case_decide; [rewrite bind_Ok; try (eexists; reflexivity);
                        apply generate_circular_returns, Hu|]).
  destruct Hk as [m Hm]. discriminate.
Qed.

(** A question of one of the four known types always gets a problem; a
    question of any other type makes [generate_question] raise KeyError. *)
Theorem generate_question_dispatch (self : PhysicsQuestion) (u : nat -> R) :
  (forall k, 0 <= u k < 1) ->
  (question_type self ∈ default_categories ->
   exists a, generate_question self u = Ok a) /\
  (question_type self ∉ default_categories ->
   generate_question self u = Raise KeyError).
Proof.
  intros Hu. split.
  - intros Hin. apply generate_question_known; [exact Hu|].
    apply methods_known, Hin.
  - intros Hout. unfold generate_question, getitem.
    destruct (methods !! question_type self) as [m|] eqn:Hm; [|reflexivity].
    exfalso. apply Hout, methods_known. eexists. exact Hm.
Qed.

Lemma generate_question_dispatch_witness :
  (exists a, generate_question (PhysicsQuestion_init "energy" 0 0) (fun _ => 0) = Ok a) /\
  generate_question (PhysicsQuestion_init "optics" 0 0) (fun _ => 0) = Raise KeyError.
Proof.
  assert (forall k : nat, 0 <= (fun _ : nat => 0) k < 1) as H by (intros _; lra).
  destruct (generate_question_dispatch (PhysicsQuestion_init "energy" 0 0) _ H) as [H1 _].
  destruct (generate_question_dispatch (PhysicsQuestion_init "optics" 0 0) _ H) as [_ H2].
  split.
  - apply H1. simpl. unfold default_categories. repeat constructor.
  - apply H2. simpl. unfold default_categories. intros Hin.
    repeat (apply elem_of_cons in Hin as [Heq|Hin]; [discriminate|]). inversion Hin.
Defined.

(** ** Creating the session *)

Section Restoring.

Context {iso : Type}.
Variable isoformat : Z -> iso.
Variable fromisoformat : iso -> result Z.

(** The questions created are those of the categories, in their order. *)
Lemma init_questions_types (existing_data : list (saved iso)) (categories : list string)
    (clock : nat -> Z) (k : nat) (qs : list PhysicsQuestion) :
  init_questions iso fromisoformat existing_data categories clock k = Ok qs ->
  map question_type qs = categories.
Proof.
  revert k qs. induction categories as [|c cs IH]; intros k qs; simpl.
  - intros [= <-]. reflexivity.
  - destruct (list_find _ existing_data) as [[i e]|].
    + destruct (fromisoformat (saved_last_reviewed iso e)) as [l|]; [|discriminate].
      rewrite bind_Ok.
      destruct (fromisoformat (saved_next_review iso e)) as [n|]; [|discriminate].
      rewrite bind_Ok.
      destruct (init_questions _ _ _ cs clock (k + 2)) as [rest|] eqn:Hrest;
        [|discriminate].
      rewrite bind_Ok. intros [= <-]. simpl. f_equal. apply (IH _ _ Hrest).
    + destruct (init_questions _ _ _ cs clock (k + 3)) as [rest|] eqn:Hrest;
        [|discriminate].
      rewrite bind_Ok. intros [= <-]. simpl. f_equal. apply (IH _ _ Hrest).
Qed.

Lemma init_inversion (m : Z) (categories : option (list string))
    (file : option (result (list (saved iso)))) (clock : nat -> Z)
    (self : PhysicsFlashcardStudyApp) :
  init iso fromisoformat m categories file clock = Ok self ->
  fsrs self = FSRS.default_params /\
  timedelta_minutes m = Ok (study_duration self) /\
  start_time self = clock 0%nat /\
  exists existing_data : list (saved iso),
    load_previous_data iso file = Ok existing_data /\
    init_questions iso fromisoformat existing_data
      (default default_categories categories) clock 1 = Ok (questions self).
Proof.
  unfold init. destruct (timedelta_minutes m) as [d|]; [|discriminate].
  rewrite bind_Ok.
  destruct (load_previous_data iso file) as [data|]; [|discriminate].
  rewrite bind_Ok.
  destruct (init_questions _ _ _ _ _ _) as [qs|] eqn:Hqs; [|discriminate].
  rewrite bind_Ok. intros [= <-]. simpl. repeat split.
  exists data. split; [reflexivity|exact Hqs].
Qed.

(** A session holds one question per category asked for, in that order,
    the four default ones when none is asked for, whatever the file holds;
    and what [save_data] then writes has an entry for these categories only. *)
Theorem init_question_types (m : Z) (categories : option (list string))
    (file : option (result (list (saved iso)))) (clock : nat -> Z)
    (self : PhysicsFlashcardStudyApp) :
  init iso fromisoformat m categories file clock = Ok self ->
  map question_type (questions self) = default default_categories categories /\
  map (saved_question_type iso) (save_data iso isoformat self)
    = default default_categories categories.
Proof.
  intros Hinit. apply init_inversion in Hinit as (_ & _ & _ & data & _ & Hqs).
  apply init_questions_types in Hqs. split; [exact Hqs|].
  unfold save_data. rewrite map_map. simpl. exact Hqs.
Qed.

End Restoring.

Lemma init_question_types_witness :
  exists self : PhysicsFlashcardStudyApp,
    init Z Ok 10 (Some ["energy"]) None Z.of_nat = Ok self /\
    map question_type (questions self) = ["energy"] /\
    map (saved_question_type Z) (save_data Z (fun d => d) self) = ["energy"].
Proof.
  eexists. split; [reflexivity|].
  refine (init_question_types (fun d => d) Ok 10 (Some ["energy"]) None Z.of_nat _ _).
  reflexivity.
Defined.

Section RoundTrip.

Context {iso : Type}.
Variable isoformat : Z -> iso.
Variable fromisoformat : iso -> result Z.

(** What the program relies on from the library: a date of the range of
    [datetime] is read back from its ISO text. *)
Hypothesis fromisoformat_isoformat :
  forall d : Z, (0 <= d <= datetime_max)%Z -> fromisoformat (isoformat d) = Ok d.

Lemma NoDup_map_inj {A B : Type} (f : A -> B) (l : list A) (x y : A) :
  NoDup (map f l) -> x ∈ l -> y ∈ l -> f x = f y -> x = y.
Proof.
  induction l as [|a l IH]; simpl; intros Hnd Hx Hy Hf; [inversion Hx|].
  apply NoDup_cons in Hnd as [Ha Hnd].
  apply elem_of_cons in Hx as [->|Hx]; apply elem_of_cons in Hy as [->|Hy].
  - reflexivity.
  - exfalso. apply Ha. rewrite Hf. apply list_elem_of_In, in_map, list_elem_of_In, Hy.
  - exfalso. apply Ha. rewrite <- Hf. apply list_elem_of_In, in_map, list_elem_of_In, Hx.
  - apply IH; assumption.
Qed.

Lemma list_find_saved (self : PhysicsFlashcardStudyApp) (q : PhysicsQuestion) :
  NoDup (map question_type (questions self)) -> q ∈ questions self ->
  exists i e,
    list_find (fun e => saved_question_type iso e = question_type q)
              (save_data iso isoformat self) = Some (i, e) /\
    saved_stability iso e = stability q /\
    saved_difficulty iso e = difficulty q /\
    saved_last_reviewed iso e = isoformat (last_reviewed q) /\
    saved_next_review iso e = isoformat (next_review q).
Proof.
  intros Hnd Hq.
  set (sv := fun q => {| saved_question_type := question_type q;
                         saved_stability := stability q;
                         saved_difficulty := difficulty q;
                         saved_last_reviewed := isoformat (last_reviewed q);
                         saved_next_review := isoformat (next_review q) |}).
  assert (save_data iso isoformat self = map sv (questions self)) as Hsave by reflexivity.
  destruct (list_find_elem_of
              (fun e => saved_question_type iso e = question_type q)
              (save_data iso isoformat self) (sv q)) as [[i e] Hfind].
  { rewrite Hsave. apply list_elem_of_In, in_map, list_elem_of_In, Hq. }
  { reflexivity. }
  exists i, e. split; [exact Hfind|].
  apply list_find_Some in Hfind as (Hi & HP & _).
  apply list_elem_of_lookup_2 in Hi. rewrite Hsave in Hi.
  apply list_elem_of_In, in_map_iff in Hi as (q' & <- & Hq').
  apply list_elem_of_In in Hq'. simpl in HP.
  assert (q' = q) as -> by (eapply NoDup_map_inj; eassumption).
  repeat split; reflexivity.
Qed.

Lemma init_questions_saved (self : PhysicsFlashcardStudyApp)
    (cs : list PhysicsQuestion) (clock : nat -> Z) (k : nat) :
  NoDup (map question_type (questions self)) ->
  Forall (fun q => q ∈ questions self /\
                   (0 <= last_reviewed q <= datetime_max)%Z /\
                   (0 <= next_review q <= datetime_max)%Z) cs ->
  init_questions iso fromisoformat (save_data iso isoformat self)
    (map question_type cs) clock k = Ok cs.
Proof.
  intros Hnd. revert k. induction cs as [|q cs IH]; intros k Hcs; [reflexivity|].
  apply Forall_cons in Hcs as [(Hq & Hl & Hn) Hcs]. simpl.
  destruct (list_find_saved self q Hnd Hq) as (i & e & -> & HS & HD & HL & HN).
  rewrite HL, HN, !fromisoformat_isoformat, !bind_Ok by assumption.
  rewrite IH, bind_Ok by assumption.
  rewrite HS, HD. destruct q. reflexivity.
Qed.

(** Saving a session and creating the next one with the same categories
    restores every question as it was: type, stability, difficulty and
    both dates.  The categories must be distinct, and the dates those of a
    [datetime]. *)
Theorem save_then_init_restores (self : PhysicsFlashcardStudyApp)
    (m duration : Z) (clock : nat -> Z) :
  NoDup (map question_type (questions self)) ->
  Forall (fun q => (0 <= last_reviewed q <= datetime_max)%Z /\
                   (0 <= next_review q <= datetime_max)%Z) (questions self) ->
  timedelta_minutes m = Ok duration ->
  init iso fromisoformat m (Some (map question_type (questions self)))
       (Some (Ok (save_data iso isoformat self))) clock
    = Ok {| fsrs := FSRS.default_params;
            study_duration := duration;
            start_time := clock 0%nat;
            questions := questions self |}.
Proof.
  intros Hnd Hdates Hm. unfold init. rewrite Hm, bind_Ok. simpl.
  rewrite init_questions_saved; [reflexivity|assumption|].
  apply Forall_forall. intros q Hq. split; [exact Hq|].
  rewrite Forall_forall in Hdates. apply Hdates, Hq.
Qed.

End RoundTrip.

Lemma save_then_init_restores_witness :
  init Z Ok 30 (Some ["kinematics"; "dynamics"])
       (Some (Ok (save_data Z (fun d => d) (Sample.session [Sample.q_stable; Sample.q_new]))))
       Z.of_nat
    = Ok {| fsrs := FSRS.default_params;
            study_duration := 1800000000;
            start_time := 0;
            questions := [Sample.q_stable; Sample.q_new] |}.
Proof.
  assert (forall d : Z, (0 <= d <= datetime_max)%Z -> Ok ((fun d : Z => d) d) = Ok d) as Hiso
    by reflexivity.
  assert (NoDup (map question_type
                     (questions (Sample.session [Sample.q_stable; Sample.q_new])))) as Hnd.
  { simpl. repeat constructor; intros Hin;
      repeat (apply elem_of_cons in Hin as [Heq|Hin]; [discriminate|]); inversion Hin. }
  assert (Forall (fun q => (0 <= last_reviewed q <= datetime_max)%Z /\
                           (0 <= next_review q <= datetime_max)%Z)
                 (questions (Sample.session [Sample.q_stable; Sample.q_new]))) as Hd.
  { simpl. repeat constructor; simpl; unfold datetime_max, us_per_day; lia. }
  assert (timedelta_minutes 30 = Ok 1800000000%Z) as Hm by reflexivity.
  exact (save_then_init_restores (fun d => d) Ok Hiso
           (Sample.session [Sample.q_stable; Sample.q_new]) 30 1800000000 Z.of_nat
           Hnd Hd Hm).
Defined.

Section Starting.

Context {iso : Type}.
Variable fromisoformat : iso -> result Z.

Lemma init_questions_new (categories : list string) (clock : nat -> Z) (k : nat) :
  exists qs : list PhysicsQuestion,
    init_questions iso fromisoformat [] categories clock k = Ok qs /\
    Forall (fun q => stability q = 0.0001 /\ difficulty q = 5.0) qs.
Proof.
  revert k. induction categories as [|c cs IH]; intros k; simpl.
  - exists []. split; [reflexivity|constructor].
  - destruct (IH (k + 3)%nat) as (rest & -> & Hrest). rewrite bind_Ok.
    eexists. split; [reflexivity|]. constructor; [split; reflexivity|exact Hrest].
Qed.

(** Without a save file, with one that cannot be opened or read (IOError)
    or is no JSON text (JSONDecodeError), or with one holding an empty
    list, the session is created all the same and every question starts at
    stability 0.0001 and difficulty 5.0; the only failure is that of a
    duration beyond the range of [timedelta].  Any other exception raised
    while the file is read, such as UnicodeDecodeError or RecursionError,
    is not caught: it leaves the constructor, unless the duration has
    already made it fail. *)
Theorem init_without_data (m : Z) (categories : option (list string))
    (file : option (result (list (saved iso)))) (clock : nat -> Z) :
  (file = None \/ file = Some (Raise IOError) \/ file = Some (Raise JSONDecodeError) \/
   file = Some (Ok []) ->
   (exists self : PhysicsFlashcardStudyApp,
      init iso fromisoformat m categories file clock = Ok self /\
      Forall (fun q => stability q = 0.0001 /\ difficulty q = 5.0) (questions self)) \/
   (init iso fromisoformat m categories file clock = Raise OverflowError /\
    ((m * 60000000) `div` us_per_day < -999999999 \/
     999999999 < (m * 60000000) `div` us_per_day)%Z)) /\
  (forall e : exn,
     e <> IOError -> e <> JSONDecodeError -> file = Some (Raise e) ->
     init iso fromisoformat m categories file clock = Raise e \/
     (init iso fromisoformat m categories file clock = Raise OverflowError /\
      ((m * 60000000) `div` us_per_day < -999999999 \/
       999999999 < (m * 60000000) `div` us_per_day)%Z)).
Proof.
  split.
  - intros Hfile.
    assert (load_previous_data iso file = Ok []) as Hload
      by (destruct Hfile as [->|[->|[->| ->]]]; reflexivity).
    unfold init. rewrite Hload. unfold timedelta_minutes.
    destruct (Z.leb_spec (-999999999) ((m * 60000000) `div` us_per_day));
      [destruct (Z.leb_spec ((m * 60000000) `div` us_per_day) 999999999)|];
      cbn [andb].
    + left. rewrite !bind_Ok.
      destruct (init_questions_new (default default_categories categories) clock 1)
        as (qs & -> & Hqs).
      rewrite bind_Ok. eexists. split; [reflexivity|exact Hqs].
    + right. split; [reflexivity|lia].
    + right. split; [reflexivity|lia].
  - intros e HIO HJSON ->.
    assert (load_previous_data iso (Some (Raise e)) = Raise e) as Hload
      by (destruct e; try reflexivity; contradiction).
    unfold init. rewrite Hload. unfold timedelta_minutes.
    destruct (Z.leb_spec (-999999999) ((m * 60000000) `div` us_per_day));
      [destruct (Z.leb_spec ((m * 60000000) `div` us_per_day) 999999999)|];
      cbn [andb].
    + left. reflexivity.
    + right. split; [reflexivity|lia].
    + right. split; [reflexivity|lia].
Qed.

Lemma category_map_lookup (cat c : string) :
  category_map !! cat = Some c -> c ∈ default_categories.
Proof.
  unfold category_map, default_categories. intros H.
  repeat (apply lookup_insert_Some in H as [[_ <-]|[_ H]]; [repeat constructor|]).
  rewrite lookup_empty in H. discriminate.
Qed.

Lemma selected_categories_known (tokens : list string) :
  Forall (fun c => c ∈ default_categories)
         (default default_categories (selected_categories tokens)) /\
  default default_categories (selected_categories tokens) <> [].
Proof.
  unfold selected_categories.
  destruct (omap _ tokens) as [|c cs] eqn:Hsel; simpl.
  - split; [|discriminate]. apply Forall_forall. intros c Hc. exact Hc.
  - split; [|discriminate]. rewrite <- Hsel. apply Forall_forall. intros x Hx.
    apply list_elem_of_omap in Hx as (cat & _ & Hcat).
    eapply category_map_lookup, Hcat.
Qed.

(** Whatever is typed for the categories, the session [main] creates has at
    least one question and only questions of the four known types, so that
    [generate_question] has a generator for each of them. *)
Theorem main_questions_known (m : Z) (tokens : list string)
    (file : option (result (list (saved iso)))) (clock : nat -> Z)
    (self : PhysicsFlashcardStudyApp) :
  init iso fromisoformat m (selected_categories tokens) file clock = Ok self ->
  questions self <> [] /\
  Forall (fun q => is_Some (methods !! question_type q)) (questions self).
Proof.
  intros Hinit. apply init_inversion in Hinit as (_ & _ & _ & data & _ & Hqs).
  apply init_questions_types in Hqs.
  destruct (selected_categories_known tokens) as [Hknown Hne].
  rewrite <- Hqs in Hknown, Hne. split.
  - intros Hnil. rewrite Hnil in Hne. apply Hne. reflexivity.
  - apply Forall_forall. intros q Hq. apply methods_known.
    rewrite Forall_forall in Hknown. apply Hknown.
    apply list_elem_of_In, in_map, list_elem_of_In, Hq.
Qed.

End Starting.

Lemma init_without_data_witness :
  (exists self : PhysicsFlashcardStudyApp,
     init Z Ok 30 None (Some (Raise JSONDecodeError)) Z.of_nat = Ok self /\
     Forall (fun q => stability q = 0.0001 /\ difficulty q = 5.0) (questions self)) /\
  init Z Ok 30 None (Some (Raise UnicodeDecodeError)) Z.of_nat = Raise UnicodeDecodeError.
Proof.
  split.
  - destruct (proj1 (init_without_data (iso := Z) Ok 30 None
                       (Some (Raise JSONDecodeError)) Z.of_nat)) as [H|[H _]].
    + right. right. left. reflexivity.
    + exact H.
    + discriminate H.
  - destruct (proj2 (init_without_data (iso := Z) Ok 30 None
                       (Some (Raise UnicodeDecodeError)) Z.of_nat)
                UnicodeDecodeError) as [H|[H _]].
    + discriminate.
    + discriminate.
    + reflexivity.
    + exact H.
    + discriminate H.
Defined.

Lemma main_questions_known_witness :
  exists self : PhysicsFlashcardStudyApp,
    init Z Ok 30 (selected_categories ["7"; "2"; ""]) None Z.of_nat = Ok self /\
    questions self <> [] /\
    Forall (fun q => is_Some (methods !! question_type q)) (questions self).
Proof.
  eexists. split; [reflexivity|].
  refine (main_questions_known Ok 30 ["7"; "2"; ""] None Z.of_nat _ _).
  reflexivity.
Defined.

(** * Reviews in a session *)

Lemma review_inversion_full
    (self self' : PhysicsFlashcardStudyApp) (iq : nat * PhysicsQuestion)
    (grade : string) (now : Z) :
  review self iq grade now = Ok self' ->
  exists (S D : R) (td : Z),
    FSRS.update_stability (fsrs self) (stability iq.2) (difficulty iq.2)
      (INR (length (questions self))) grade = Ok S /\
    FSRS.update_difficulty (fsrs self) (difficulty iq.2) grade
      (INR (length (questions self))) = Ok D /\
    timedelta_days S = Ok td /\
    (0 <= now + td <= datetime_max)%Z /\
    self' = {| fsrs := fsrs self; study_duration := study_duration self;
               start_time := start_time self;
               questions := <[iq.1 := set_review iq.2 S D (now + td)]> (questions self) |}.
Proof.
  unfold review.
  destruct (FSRS.update_stability _ _ _ _ _) as [S|] eqn:HS; [|discriminate]. simpl.
  destruct (FSRS.update_difficulty _ _ _ _) as [D|] eqn:HD; [|discriminate]. simpl.
  destruct (timedelta_days S) as [td|] eqn:Htd; [|discriminate]. simpl.
  unfold datetime_add.
  destruct (Z.leb_spec 0 (now + td)); [|discriminate].
  destruct (Z.leb_spec (now + td) datetime_max); [|discriminate]. simpl.
  intros [= <-]. exists S, D, td. repeat split; assumption.
Qed.

Lemma timedelta_days_nonneg (S : R) (td : Z) :
  0 <= S -> timedelta_days S = Ok td -> (0 <= td)%Z.
Proof.
  intros HS. unfold timedelta_days. destruct (_ && _)%bool; [|discriminate].
  intros [= <-]. apply round_half_even_ge. unfold us_per_day.
  apply Rmult_le_pos; [assumption|]. apply IZR_le. lia.
Qed.

(** A review touches one question only.  The parameters, the duration, the
    starting time, the number of questions and every other question are as
    before; the reviewed question keeps its type and its [last_reviewed],
    and its new [next_review] is not before the time of the review when its
    new stability is not negative. *)
Theorem review_frame
    (self self' : PhysicsFlashcardStudyApp) (iq : nat * PhysicsQuestion)
    (grade : string) (now : Z) :
  review self iq grade now = Ok self' ->
  fsrs self' = fsrs self /\
  study_duration self' = study_duration self /\
  start_time self' = start_time self /\
  length (questions self') = length (questions self) /\
  (forall j : nat, j <> iq.1 -> questions self' !! j = questions self !! j) /\
  (forall q' : PhysicsQuestion,
     questions self' !! iq.1 = Some q' ->
     question_type q' = question_type iq.2 /\
     last_reviewed q' = last_reviewed iq.2 /\
     (0 <= stability q' -> (now <= next_review q')%Z)).
Proof.
  intros Hrev.
  apply review_inversion_full in Hrev as (S & D & td & _ & _ & Htd & _ & ->). simpl.
  repeat (split; [reflexivity|]).
  split; [apply length_insert|]. split.
  - intros j Hj. apply list_lookup_insert_ne. congruence.
  - intros q' Hq'.
    apply list_lookup_insert_Some in Hq' as [(_ & <- & _)|[Hne _]]; [|congruence].
    simpl. repeat split. intros HS.
    pose proof (timedelta_days_nonneg S td HS Htd). lia.
Qed.

Lemma review_frame_witness :
  exists self' : PhysicsFlashcardStudyApp,
    review (Sample.session [Sample.q_saved]) (0%nat, Sample.q_saved) "Again" 86400000000
      = Ok self' /\
    length (questions self') = length (questions (Sample.session [Sample.q_saved])).
Proof.
  assert (exists self', review (Sample.session [Sample.q_saved]) (0%nat, Sample.q_saved)
                               "Again" 86400000000 = Ok self') as [self' Hrev].
  { unfold review. simpl.
    rewrite (update_stability_Again_value _ 1.0 1.0) by (reflexivity || lra).
    replace (- (1.0)) with (-1) by lra. rewrite Rpower_neg1 by lra.
    replace (Rmin 1 (1 * / 5.0 * 1.0)) with (IZR 1 / 5) by minmax_cases.
    rewrite bind_Ok. rewrite (update_difficulty_value _ 1.0) by reflexivity.
    rewrite bind_Ok. unfold timedelta_days.
    replace (IZR 1 / 5 * IZR us_per_day) with (IZR 17280000000)
      by (unfold us_per_day; lra).
    unfold round_half_even. rewrite Int_part_IZR, frac_part_IZR.
    destruct (Rlt_dec 0 (1 / 2)); [|lra]. eexists. reflexivity. }
  exists self'. split; [exact Hrev|].
  exact (proj1 (proj2 (proj2 (proj2
           (review_frame _ self' (0%nat, Sample.q_saved) "Again" 86400000000 Hrev))))).
Defined.

Lemma INR_length_ge_1 {A : Type} (l : list A) (i : nat) (x : A) :
  l !! i = Some x -> 1 <= INR (length l).
Proof.
  intros H. apply lookup_lt_Some in H.
  change 1 with (INR 1). apply le_INR. lia.
Qed.

Lemma update_stability_default_positive (S D n : R) (grade : string) :
  0 < S -> 1 <= D <= 10 -> 1 <= n ->
  exists S', FSRS.update_stability FSRS.default_params S D n grade = Ok S' /\ 0 < S'.
Proof.
  intros HS HD Hn. destruct (decide (grade = "Again")) as [->|Hg].
  - rewrite (update_stability_Again_value _ 1.0 1.0) by (reflexivity || lra).
    eexists. split; [reflexivity|].
    apply Rmin_glb_lt; [assumption|].
    apply Rmult_lt_0_compat; [|lra].
    apply Rmult_lt_0_compat; [assumption|]. unfold Rpower. apply exp_pos.
  - rewrite update_stability_not_Again by assumption.
    rewrite (stability_increase_value _ 1.0) by (reflexivity || lra).
    rewrite bind_Ok. eexists. split; [reflexivity|].
    apply Rmult_lt_0_compat; [assumption|].
    eapply Rlt_le_trans; [|apply Rmax_l]. lra.
Qed.

(** What a review of a question of a well-formed session gives. *)
Lemma review_cases
    (self : PhysicsFlashcardStudyApp) (iq : nat * PhysicsQuestion)
    (grade : string) (now : Z) :
  well_formed self -> questions self !! iq.1 = Some iq.2 ->
  (exists (S D : R) (next : Z),
     review self iq grade now
       = Ok {| fsrs := fsrs self; study_duration := study_duration self;
               start_time := start_time self;
               questions := <[iq.1 := set_review iq.2 S D next]> (questions self) |} /\
     0 < S /\ 1 <= D <= 10) \/
  review self iq grade now = Raise OverflowError.
Proof.
  intros [Hfsrs Hqs] Hiq.
  pose proof (Forall_lookup_1 _ _ _ _ Hqs Hiq) as (HS & HD & Hty).
  pose proof (INR_length_ge_1 _ _ _ Hiq) as Hn.
  unfold review. rewrite Hfsrs.
  destruct (update_stability_default_positive (stability iq.2) (difficulty iq.2)
              (INR (length (questions self))) grade HS HD Hn) as (S' & -> & HS').
  rewrite bind_Ok, (update_difficulty_value _ 1.0), bind_Ok by reflexivity.
  pose proof (clamp_bounds
    (0.9 * (difficulty iq.2 + get FSRS.difficulty_change grade 0.0) + 0.1 * 1.0)) as HD'.
  destruct (timedelta_days S') as [td|e] eqn:Htd.
  - rewrite bind_Ok. unfold datetime_add.
    destruct (_ && _)%bool; [|right; reflexivity].
    rewrite bind_Ok. left. do 3 eexists. split; [reflexivity|]. split; assumption.
  - right. unfold timedelta_days in Htd.
    destruct (_ && _)%bool; [discriminate|]. injection Htd as <-. reflexivity.
Qed.

Lemma well_formed_set_review
    (self : PhysicsFlashcardStudyApp) (iq : nat * PhysicsQuestion)
    (S D : R) (next : Z) :
  well_formed self -> questions self !! iq.1 = Some iq.2 ->
  0 < S -> 1 <= D <= 10 ->
  well_formed {| fsrs := fsrs self; study_duration := study_duration self;
                 start_time := start_time self;
                 questions := <[iq.1 := set_review iq.2 S D next]> (questions self) |}.
Proof.
  intros [Hfsrs Hqs] Hiq HS HD.
  pose proof (Forall_lookup_1 _ _ _ _ Hqs Hiq) as (_ & _ & Hty).
  split; [exact Hfsrs|]. simpl.
  apply Forall_insert; [exact Hqs|]. repeat split; simpl; tauto.
Qed.

(** A review of a question of a well-formed session whose stability is at
    least [float_epsilon], with any string as the grade, either succeeds
    and leaves the session well formed, or raises OverflowError, when the
    new date is beyond the range of dates. *)
Theorem review_keeps_well_formed
    (self : PhysicsFlashcardStudyApp) (iq : nat * PhysicsQuestion)
    (grade : string) (now : Z) :
  well_formed self -> questions self !! iq.1 = Some iq.2 ->
  float_epsilon <= stability iq.2 ->
  (exists self', review self iq grade now = Ok self' /\ well_formed self') \/
  review self iq grade now = Raise OverflowError.
Proof.
  intros Hwf Hiq _.
  destruct (review_cases self iq grade now Hwf Hiq)
    as [(S & D & next & Hrev & HS & HD)|Hrev]; [left|right; exact Hrev].
  eexists. split; [exact Hrev|].
  apply well_formed_set_review; assumption.
Qed.

Lemma review_keeps_well_formed_witness :
  (exists self', review (Sample.session [Sample.q_new]) (0%nat, Sample.q_new)
                        "anything" 0 = Ok self' /\ well_formed self') \/
  review (Sample.session [Sample.q_new]) (0%nat, Sample.q_new) "anything" 0
    = Raise OverflowError.
Proof.
  assert (well_formed (Sample.session [Sample.q_new])) as Hwf.
  { split; [reflexivity|]. repeat constructor; simpl; try lra.
    eexists. reflexivity. }
  assert (float_epsilon <= stability (0%nat, Sample.q_new).2) as HS
    by (unfold float_epsilon; simpl; lra).
  exact (review_keeps_well_formed (Sample.session [Sample.q_new])
           (0%nat, Sample.q_new) "anything" 0 Hwf eq_refl HS).
Defined.

Lemma ln_succ_ge (x : R) : 0 < x -> x / (1 + x) <= ln (x + 1).
Proof.
  intros Hx. pose proof (exp_ineq1_le (- (x / (1 + x)))) as He.
  replace (1 + - (x / (1 + x))) with (/ (x + 1)) in He by (field; lra).
  assert (0 < / (x + 1)) as Hpos by (apply Rinv_0_lt_compat; lra).
  assert (ln (/ (x + 1)) <= ln (exp (- (x / (1 + x))))) as Hln.
  { destruct He as [Hlt|Heq]; [left; apply ln_increasing; assumption|].
    rewrite Heq. lra. }
  rewrite ln_Rinv, ln_exp in Hln by lra. lra.
Qed.

Lemma ln_2_lt_1 : ln 2 < 1.
Proof.
  rewrite <- (ln_exp 1). apply ln_increasing; [lra|].
  pose proof (exp_ineq1 1). lra.
Qed.

(** [timedelta(days=x)] for a number of days between 0 and 1000. *)
Lemma timedelta_days_returns (x : R) :
  0 <= x <= 1000 ->
  exists td : Z, timedelta_days x = Ok td /\ (0 <= td <= 1000 * us_per_day)%Z.
Proof.
  intros [H0 H1]. unfold timedelta_days.
  assert (0 <= round_half_even (x * IZR us_per_day))%Z as Hlo.
  { apply round_half_even_ge. unfold us_per_day.
    apply Rmult_le_pos; [assumption|]. apply IZR_le. lia. }
  assert (round_half_even (x * IZR us_per_day) <= 1000 * us_per_day)%Z as Hhi.
  { apply round_half_even_le. rewrite mult_IZR. unfold us_per_day.
    apply Rmult_le_compat_r; [apply IZR_le; lia|assumption]. }
  set (us := round_half_even (x * IZR us_per_day)) in *.
  assert (0 <= us `div` us_per_day <= 1000)%Z as [Hd0 Hd1].
  { unfold us_per_day in *. split.
    - apply Z.div_pos; lia.
    - apply Z.div_le_upper_bound; lia. }
  destruct (Z.leb_spec (-999999999) (us `div` us_per_day)); [|lia].
  destruct (Z.leb_spec (us `div` us_per_day) 999999999); [|lia].
  exists us. split; [reflexivity|lia].
Qed.

Lemma log2_inverse_le (x : R) : 0 < x -> / (ln (x + 1) / ln 2) <= (1 + x) / x.
Proof.
  intros Hx. pose proof ln_2_pos as H2. pose proof ln_2_lt_1 as H2'.
  pose proof (ln_succ_ge x Hx) as Hl.
  assert (0 < x / (1 + x)) as Hq by (apply Rdiv_lt_0_compat; lra).
  replace (/ (ln (x + 1) / ln 2)) with (ln 2 / ln (x + 1)) by (field; lra).
  replace ((1 + x) / x) with (1 / (x / (1 + x))) by (field; lra).
  apply Rmult_le_compat; try lra.
  - left. apply Rinv_0_lt_compat. lra.
  - apply Rinv_le_contravar; lra.
Qed.

(** The stability of a new question graded Good in a session of one
    question: between 0.0001 and 6.0006 days. *)
Lemma update_stability_new_Good :
  exists inc : R,
    1 <= inc <= 60006 /\
    FSRS.update_stability FSRS.default_params 0.0001 5.0 1 "Good" = Ok (0.0001 * inc).
Proof.
  rewrite update_stability_not_Again by discriminate.
  rewrite (stability_increase_value _ 1.0) by (reflexivity || lra).
  simpl. rewrite log2_inverse_at_1.
  pose proof (log2_inverse_le 0.0001 ltac:(lra)) as Hle.
  pose proof (Rmax_l 1 (/ (ln (0.0001 + 1) / ln 2))) as Hge.
  assert (Rmax 1 (/ (ln (0.0001 + 1) / ln 2)) <= 10001) as Hfs
    by (apply Rmax_lub; lra).
  set (fS := Rmax 1 (/ (ln (0.0001 + 1) / ln 2))) in *.
  eexists. split; [|reflexivity].
  split; [apply Rmax_l|]. apply Rmax_lub; lra.
Qed.

(** A review with the default parameters returns as soon as the new
    stability is between 0 and 1000 days and the clock leaves room for
    them. *)
Lemma review_returns (self : PhysicsFlashcardStudyApp) (iq : nat * PhysicsQuestion)
    (grade : string) (now : Z) (S' : R) :
  fsrs self = FSRS.default_params ->
  FSRS.update_stability FSRS.default_params (stability iq.2) (difficulty iq.2)
    (INR (length (questions self))) grade = Ok S' ->
  0 <= S' <= 1000 ->
  (0 <= now <= datetime_max - 1000 * us_per_day)%Z ->
  exists self', review self iq grade now = Ok self'.
Proof.
  intros Hfsrs Hup HS Hnow. unfold review. rewrite Hfsrs, Hup, bind_Ok.
  rewrite (update_difficulty_value _ 1.0), bind_Ok by reflexivity.
  destruct (timedelta_days_returns S' HS) as (td & -> & Htd0 & Htd1).
  rewrite bind_Ok. unfold datetime_add.
  destruct (Z.leb_spec 0 (now + td)); [|lia].
  destruct (Z.leb_spec (now + td) datetime_max); [|lia].
  cbn [andb]. rewrite bind_Ok. eexists. reflexivity.
Qed.

(** The first review of a new question, the only one of its session,
    graded Good at time 0. *)
Lemma review_sample_new_Good_returns :
  exists self' : PhysicsFlashcardStudyApp,
    review (Sample.session [Sample.q_new]) (0%nat, Sample.q_new) "Good" 0 = Ok self'.
Proof.
  destruct update_stability_new_Good as (inc & [Hi1 Hi2] & Hup).
  apply (review_returns _ _ _ _ (0.0001 * inc)).
  - reflexivity.
  - exact Hup.
  - lra.
  - unfold datetime_max, us_per_day. lia.
Qed.

(** In a session of at most six hours one review with a grade other than
    Again makes the reviewed question, when its stability was at least
    [float_epsilon], pass the stability test that ends the session. *)
Theorem review_makes_stable
    (self self' : PhysicsFlashcardStudyApp) (iq : nat * PhysicsQuestion)
    (grade : string) (now : Z) :
  well_formed self -> questions self !! iq.1 = Some iq.2 ->
  float_epsilon <= stability iq.2 ->
  grade <> "Again" -> (study_duration self <= 21600000000)%Z ->
  review self iq grade now = Ok self' ->
  exists q' : PhysicsQuestion,
    questions self' !! iq.1 = Some q' /\
    stability q' >= min_stability_days self'.
Proof.
  intros [Hfsrs Hqs] Hiq _ Hg Hdur Hrev.
  pose proof (Forall_lookup_1 _ _ _ _ Hqs Hiq) as (HS & HD & _).
  pose proof (INR_length_ge_1 _ _ _ Hiq) as Hn.
  apply review_inversion_full in Hrev as (S & D & td & HS' & _ & _ & _ & ->).
  eexists. split.
  { simpl. apply list_lookup_insert_eq. eapply lookup_lt_Some, Hiq. }
  simpl. rewrite Hfsrs in HS'.
  rewrite update_stability_not_Again in HS' by assumption.
  rewrite (stability_increase_value _ 1.0) in HS' by (reflexivity || lra).
  rewrite bind_Ok in HS'. injection HS' as <-.
  destruct (decide (grade = "Again")); [contradiction|].
  rewrite (Rmult_assoc _ (if decide (grade ∈ ["Good"; "Easy"]) then 1 else 0.5)).
  match goal with |- context [_ * 1.0 * ?c] =>
    destruct (stability_growth_floor 1.0 (stability iq.2) (difficulty iq.2)
                (Rmax 1 (/ (ln (INR (length (questions self)) + 1) / ln 2))) c)
      as [Hq _]; try assumption; try apply Rmax_l; try lra
  end.
  { destruct (decide (grade ∈ ["Good"; "Easy"])), (decide (grade ∈ ["Hard"; "Good"])); lra. }
  assert (min_stability_days
            {| fsrs := fsrs self; study_duration := study_duration self;
               start_time := start_time self;
               questions := <[iq.1 := set_review iq.2
                   (stability iq.2 *
                    Rmax 1 ((11 - difficulty iq.2)
                            * Rmax 1 (/ (ln (stability iq.2 + 1) / ln 2))
                            * Rmax 1 (/ (ln (INR (length (questions self)) + 1) / ln 2))
                            * 1.0
                            * ((if decide (grade ∈ ["Good"; "Easy"]) then 1 else 0.5)
                               * (if decide (grade ∈ ["Hard"; "Good"]) then 1 else 3))))
                   D (now + td)]> (questions self) |} <= 1 / 4) as Hmin.
  { unfold min_stability_days, total_seconds. simpl.
    apply IZR_le in Hdur. rewrite max_Rmax. apply Rmax_lub; lra. }
  lra.
Qed.

Lemma review_makes_stable_witness :
  exists self' : PhysicsFlashcardStudyApp,
    review (Sample.session [Sample.q_new]) (0%nat, Sample.q_new) "Good" 0 = Ok self' /\
    exists q' : PhysicsQuestion,
      questions self' !! 0%nat = Some q' /\ stability q' >= min_stability_days self'.
Proof.
  destruct review_sample_new_Good_returns as [self' Hrev].
  exists self'. split; [exact Hrev|].
  assert (well_formed (Sample.session [Sample.q_new])) as Hwf.
  { split; [reflexivity|]. repeat constructor; simpl; try lra.
    eexists. reflexivity. }
  assert (float_epsilon <= stability (0%nat, Sample.q_new).2) as HS
    by (unfold float_epsilon; simpl; lra).
  assert ("Good" <> "Again") as Hg by discriminate.
  assert (study_duration (Sample.session [Sample.q_new]) <= 21600000000)%Z as Hd
    by (simpl; lia).
  exact (review_makes_stable (Sample.session [Sample.q_new]) self'
           (0%nat, Sample.q_new) "Good" 0 Hwf eq_refl HS Hg Hd Hrev).
Defined.

(** ** Selecting after a review *)

Lemma question_to_review_candidate (self : PhysicsFlashcardStudyApp) (t : Z) :
  questions self <> [] ->
  exists iq, question_to_review self t = Ok iq /\ Selection.candidate self t iq.
Proof.
  intros Hne. unfold question_to_review.
  pose proof (reviewable_questions_sorted self t) as Hsorted.
  pose proof (reviewable_questions_candidate self t) as Hcand.
  destruct (reviewable_questions self t) as [|b l] eqn:Hrev.
  - exfalso. unfold reviewable_questions in Hrev.
    destruct (filter _ _); [|discriminate].
    destruct (questions self); [contradiction|discriminate].
  - simpl. eexists. split; [reflexivity|].
    apply Hcand. apply (min_key_from_preferred l b Hsorted).
Qed.

(** A question that has just been reviewed is not selected again as long as
    its new [next_review] lies ahead and another question is due. *)
Theorem reviewed_question_waits
    (self self' : PhysicsFlashcardStudyApp) (iq : nat * PhysicsQuestion)
    (grade : string) (now t : Z) (j : nat) (qj : PhysicsQuestion) :
  review self iq grade now = Ok self' ->
  j <> iq.1 -> questions self !! j = Some qj -> (next_review qj <= t)%Z ->
  (forall q', questions self' !! iq.1 = Some q' -> (t < next_review q')%Z) ->
  exists iq', question_to_review self' t = Ok iq' /\ iq'.1 <> iq.1.
Proof.
  intros Hrev Hj Hqj Hdue Hwait.
  apply review_inversion_full in Hrev as (S & D & td & _ & _ & _ & _ & ->).
  assert (<[iq.1 := set_review iq.2 S D (now + td)]> (questions self) !! j = Some qj)
    as Hqj' by (rewrite list_lookup_insert_ne by congruence; exact Hqj).
  match goal with |- context [question_to_review ?s t] => set (s' := s) in * end.
  assert (questions s' <> []) as Hne.
  { simpl. intros Hnil. rewrite Hnil in Hqj'. rewrite lookup_nil in Hqj'. discriminate. }
  destruct (question_to_review_candidate s' t Hne) as (iq' & Heq & Hlook & Hc).
  exists iq'. split; [exact Heq|]. intros Hsame.
  assert (next_review iq'.2 <= t)%Z as Hle.
  { apply Hc. exists qj. split; [|exact Hdue].
    apply list_elem_of_lookup. exists j. exact Hqj'. }
  rewrite Hsame in Hlook. specialize (Hwait _ Hlook). lia.
Qed.

Lemma reviewed_question_waits_witness :
  exists self' iq',
    review (Sample.session [Sample.q_saved; Sample.q_dynamics])
           (0%nat, Sample.q_saved) "Good" 86400000000 = Ok self' /\
    question_to_review self' 86400000000 = Ok iq' /\ iq'.1 <> 0%nat.
Proof.
  assert (exists self', review (Sample.session [Sample.q_saved; Sample.q_dynamics])
           (0%nat, Sample.q_saved) "Good" 86400000000 = Ok self' /\
           questions self' !! 0%nat
             = Some (set_review Sample.q_saved 6 4.6 604800000000)) as (self' & Hrev & H0).
  { unfold review. simpl.
    replace (1 + 1) with 2 by lra.
    rewrite update_stability_saved_Good by lra.
    assert (Rmax 1 (/ (ln (2 + 1) / ln 2)) = 1) as ->.
    { pose proof ln_2_pos as H2.
      assert (ln 2 < ln (2 + 1)) as Hlt by (apply ln_increasing; lra).
      assert (/ (ln (2 + 1) / ln 2) <= 1) as Hinv.
      { replace (/ (ln (2 + 1) / ln 2)) with (ln 2 / ln (2 + 1)) by (field; lra).
        apply (Rmult_le_reg_r (ln (2 + 1))); [lra|].
        unfold Rdiv. rewrite Rmult_assoc, Rinv_l by lra. lra. }
      minmax_cases. }
    replace (Rmax 1 (6 * 1)) with (IZR 6) by minmax_cases.
    rewrite bind_Ok, (update_difficulty_value _ 1.0), bind_Ok by reflexivity.
    rewrite difficulty_change_get. simpl.
    replace (Rmax 1 (Rmin 10 (0.9 * (5.0 + 0.0) + 0.1 * 1.0))) with 4.6 by minmax_cases.
    rewrite (timedelta_days_whole 6) by lia. eexists. split; reflexivity. }
  assert (1%nat <> (0%nat, Sample.q_saved).1) as Hj by (simpl; lia).
  assert (questions (Sample.session [Sample.q_saved; Sample.q_dynamics]) !! 1%nat
          = Some Sample.q_dynamics) as Hq by reflexivity.
  assert (next_review Sample.q_dynamics <= 86400000000)%Z as Hdue by (simpl; lia).
  destruct (reviewed_question_waits _ self' (0%nat, Sample.q_saved) "Good"
              86400000000 86400000000 1 Sample.q_dynamics Hrev Hj Hq Hdue)
    as (iq' & Hsel & Hne).
  - intros q' Hq'. simpl in Hq'. rewrite H0 in Hq'. injection Hq' as <-. simpl. lia.
  - exists self', iq'. split; [exact Hrev|]. split; [exact Hsel|exact Hne].
Defined.

(** ** One turn of the session *)

Lemma well_formed_types_after_review
    (self self' : PhysicsFlashcardStudyApp) (iq : nat * PhysicsQuestion)
    (grade : string) (now : Z) :
  questions self !! iq.1 = Some iq.2 ->
  review self iq grade now = Ok self' ->
  map question_type (questions self') = map question_type (questions self).
Proof.
  intros Hiq Hrev.
  apply review_inversion_full in Hrev as (S & D & td & _ & _ & _ & _ & ->). simpl.
  change (question_type <$> <[iq.1 := set_review iq.2 S D (now + td)]> (questions self)
          = question_type <$> questions self).
  rewrite list_fmap_insert. apply list_insert_id.
  rewrite list_lookup_fmap, Hiq. reflexivity.
Qed.

(** A turn of a well-formed session of a duration other than zero, whose
    questions all have a stability of at least [float_epsilon], ends in one
    of four ways: the time is up; all questions are stable; the turn is
    done and the session, with the same questions in the same order, is
    well formed again; or OverflowError is raised, by a date out of range.
    No other exception leaves the turn. *)
Theorem loop_turn_outcomes
    (self : PhysicsFlashcardStudyApp) (t199 t200 : Z) (u : nat -> R)
    (user_answer : option R) (grade : string) (t250 t251 : Z) :
  well_formed self -> Forall (fun q => float_epsilon <= stability q) (questions self) ->
  study_duration self <> 0%Z -> (forall k, 0 <= u k < 1) ->
  loop_turn self t199 t200 u user_answer grade t250 t251 = Ok TimeUp \/
  loop_turn self t199 t200 u user_answer grade t250 t251 = Ok AllStable \/
  (exists self',
     loop_turn self t199 t200 u user_answer grade t250 t251 = Ok (Next self') /\
     well_formed self' /\
     map question_type (questions self') = map question_type (questions self)) \/
  loop_turn self t199 t200 u user_answer grade t250 t251 = Raise OverflowError.
Proof.
  intros Hwf _ Hdur Hu. unfold loop_turn.
  destruct (bool_decide _); [|left; reflexivity].
  destruct (all_stable self) eqn:Hall; [right; left; reflexivity|].
  pose proof (all_stable_false_nonempty self Hall) as Hne.
  destruct (question_to_review_candidate self t200 Hne) as (iq & -> & Hiq & _).
  rewrite bind_Ok.
  destruct (generate_question_known iq.2 u Hu) as [a ->].
  { destruct Hwf as [_ Hqs]. apply (Forall_lookup_1 _ _ _ _ Hqs Hiq). }
  rewrite bind_Ok. right. right.
  destruct user_answer as [ua|].
  - destruct (review_cases self iq grade t250 Hwf Hiq)
      as [(S & D & next & Hrev & HS & HD)|Hrev]; rewrite Hrev.
    + rewrite bind_Ok. simpl.
      unfold timedelta_sub. destruct (_ && _)%bool; [|right; reflexivity].
      rewrite bind_Ok, truediv_Ok, bind_Ok.
      * left. eexists. split; [reflexivity|].
        split; [apply well_formed_set_review; assumption|].
        eapply well_formed_types_after_review; eassumption.
      * unfold total_seconds. intros H0. apply Hdur. apply eq_IZR. lra.
    + right. reflexivity.
  - left. exists self. split; [reflexivity|]. split; [exact Hwf|reflexivity].
Qed.

Lemma sample_new_not_stable : all_stable (Sample.session [Sample.q_new]) = false.
Proof.
  unfold all_stable. rewrite min_stability_days_session. simpl.
  destruct (Rge_dec _ _); [lra|reflexivity].
Qed.

Lemma sample_new_well_formed : well_formed (Sample.session [Sample.q_new]).
Proof.
  split; [reflexivity|]. repeat constructor; simpl; try lra.
  eexists. reflexivity.
Qed.

Lemma loop_turn_outcomes_witness :
  loop_turn (Sample.session [Sample.q_new]) 0 0 (fun _ => 0) None "Good" 0 0 = Ok TimeUp \/
  loop_turn (Sample.session [Sample.q_new]) 0 0 (fun _ => 0) None "Good" 0 0 = Ok AllStable \/
  (exists self',
     loop_turn (Sample.session [Sample.q_new]) 0 0 (fun _ => 0) None "Good" 0 0
       = Ok (Next self') /\
     well_formed self' /\
     map question_type (questions self')
       = map question_type (questions (Sample.session [Sample.q_new]))) \/
  loop_turn (Sample.session [Sample.q_new]) 0 0 (fun _ => 0) None "Good" 0 0
    = Raise OverflowError.
Proof.
  assert (study_duration (Sample.session [Sample.q_new]) <> 0%Z) as Hd by discriminate.
  assert (forall k : nat, 0 <= (fun _ : nat => 0) k < 1) as Hu by (intros _; lra).
  assert (Forall (fun q => float_epsilon <= stability q)
                 (questions (Sample.session [Sample.q_new]))) as HS.
  { repeat constructor. unfold float_epsilon. simpl. lra. }
  exact (loop_turn_outcomes (Sample.session [Sample.q_new]) 0 0 (fun _ => 0) None "Good"
           0 0 sample_new_well_formed HS Hd Hu).
Defined.

(** The number typed as the answer has no influence on the session: any two
    numbers give the same outcome of the turn; and when what is typed is no
    number, the turn leaves the session as it was. *)
Theorem loop_turn_answer
    (self : PhysicsFlashcardStudyApp) (t199 t200 : Z) (u : nat -> R)
    (grade : string) (t250 t251 : Z) :
  (forall a1 a2 : R,
     loop_turn self t199 t200 u (Some a1) grade t250 t251
       = loop_turn self t199 t200 u (Some a2) grade t250 t251) /\
  (forall self' : PhysicsFlashcardStudyApp,
     loop_turn self t199 t200 u None grade t250 t251 = Ok (Next self') ->
     self' = self).
Proof.
  split; [reflexivity|].
  intros self'. unfold loop_turn.
  destruct (bool_decide _); [|discriminate].
  destruct (all_stable self); [discriminate|].
  destruct (question_to_review self t200) as [iq|]; [|discriminate].
  rewrite bind_Ok.
  destruct (generate_question iq.2 u) as [a|]; [|discriminate].
  rewrite bind_Ok. intros [= <-]. reflexivity.
Qed.

Lemma loop_turn_answer_witness :
  exists self' : PhysicsFlashcardStudyApp,
    loop_turn (Sample.session [Sample.q_new]) 0 0 (fun _ => 0) None "Good" 0 0
      = Ok (Next self') /\
    self' = Sample.session [Sample.q_new].
Proof.
  assert (loop_turn (Sample.session [Sample.q_new]) 0 0 (fun _ => 0) None "Good" 0 0
          = Ok (Next (Sample.session [Sample.q_new]))) as Hturn.
  { unfold loop_turn. rewrite sample_new_not_stable. reflexivity. }
  exists (Sample.session [Sample.q_new]). split; [exact Hturn|].
  exact (proj2 (loop_turn_answer (Sample.session [Sample.q_new]) 0 0 (fun _ => 0) "Good" 0 0)
           _ Hturn).
Defined.

(** A session without questions never reaches the selection, where [min]
    would raise on the empty list: its first turn finds the time up or all
    questions stable. *)
Theorem loop_turn_no_question
    (self : PhysicsFlashcardStudyApp) (t199 t200 : Z) (u : nat -> R)
    (user_answer : option R) (grade : string) (t250 t251 : Z) :
  questions self = [] ->
  question_to_review self t200 = Raise ValueError /\
  (loop_turn self t199 t200 u user_answer grade t250 t251 = Ok TimeUp \/
   loop_turn self t199 t200 u user_answer grade t250 t251 = Ok AllStable).
Proof.
  intros Hnil. split; [apply question_to_review_empty, Hnil|].
  unfold loop_turn, all_stable. rewrite Hnil. simpl.
  destruct (bool_decide _); [right|left]; reflexivity.
Qed.

Lemma loop_turn_no_question_witness :
  question_to_review (Sample.session []) 0 = Raise ValueError /\
  (loop_turn (Sample.session []) 0 0 (fun _ => 0) None "Good" 0 0 = Ok TimeUp \/
   loop_turn (Sample.session []) 0 0 (fun _ => 0) None "Good" 0 0 = Ok AllStable).
Proof.
  exact (loop_turn_no_question (Sample.session []) 0 0 (fun _ => 0) None "Good" 0 0 eq_refl).
Defined.
